(** * Video tutorial generator front end: job polling, plan actions, library

    A shallow embedding of the React components of the front end
    ([App.tsx], [components/VideoRequestForm.tsx],
    [components/TutorialLibrary.tsx]) and the properties of the
    job-lifecycle engine they implement.

    Conventions of the embedding:
    - a TypeScript [string] is a [string] (a sequence of code units below
      256); [T | null] and [T | undefined] are [option T];
    - [useState] cells are record fields, their setters are functions on the
      record; [useRef] cells are fields read at the time of use;
    - an [async] handler is split at its [await]: the part before it runs
      when the handler is called and leaves an outstanding request, the part
      after it runs when a reply for that request is delivered;
    - a handler part, the render it causes and the effects of that render
      form one step. *)

From Stdlib Require Import String Ascii List Bool ZArith QArith Lia.
From stdpp Require Import base option list gmap strings.

(** ** JavaScript built-ins used by the components *)
Module Js.

(** [ToBoolean] on a string: only the empty string is falsy. *)
Definition truthy (s : string) : bool :=
  match s with
  | EmptyString => false
  | String _ _ => true
  end.

(** [x || d] for [x : string | undefined]. *)
Definition orElse (x : option string) (d : string) : string :=
  match x with
  | Some s => if truthy s then s else d
  | None => d
  end.

(** [Array.prototype.includes] on an array of strings. *)
Definition includes (l : list string) (s : string) : bool :=
  existsb (String.eqb s) l.

(** ECMAScript WhiteSpace and LineTerminator code units below 256:
    TAB, LF, VT, FF, CR, SP and NBSP. *)
Definition isWhiteSpace (c : ascii) : bool :=
  match N_of_ascii c with
  | 9 | 10 | 11 | 12 | 13 | 32 | 160 => true
  | _ => false
  end%N.

Fixpoint trimStart (s : string) : string :=
  match s with
  | EmptyString => EmptyString
  | String c s' => if isWhiteSpace c then trimStart s' else s
  end.

Fixpoint trimEnd (s : string) : string :=
  match s with
  | EmptyString => EmptyString
  | String c s' =>
      match trimEnd s' with
      | EmptyString =>
          if isWhiteSpace c then EmptyString else String c EmptyString
      | r => String c r
      end
  end.

(** [String.prototype.trim]. *)
Definition trim (s : string) : string := trimEnd (trimStart s).

(** Every code unit of [s] is white space. *)
Definition blank (s : string) : Prop :=
  Forall (fun c => isWhiteSpace c = true) (list_ascii_of_string s).

(** [String.prototype.substring(a, b)] for indices that are natural
    numbers: both are clamped to the length and swapped when out of order. *)
Definition substring (s : string) (a b : nat) : string :=
  let a := Nat.min a (String.length s) in
  let b := Nat.min b (String.length s) in
  String.substring (Nat.min a b) (Nat.max a b - Nat.min a b) s.

End Js.

(** ** [components/VideoRequestForm.tsx] *)
Module VideoRequestForm.

(** [handleSubmit]: the form's submit handler, with the [instruction] cell
    and the [onSubmit] prop made explicit. [onSubmit] acts on the state [S]
    of the parent component. [e.preventDefault()] only stops the browser
    from reloading the page. *)
Definition handleSubmit {S : Type} (onSubmit : string -> S -> S)
    (instruction : string) (parent : S) : S :=
  if Js.truthy (Js.trim instruction)
  then onSubmit (Js.trim instruction) parent
  else parent.

(** The [disabled] attribute of the submit button. *)
Definition submitDisabled (isLoading : bool) (instruction : string) : bool :=
  isLoading || negb (Js.truthy (Js.trim instruction)).

(** The arguments [onSubmit] is called with by one submission, recorded by
    a callback that only notes its argument. *)
Definition invocations (instruction : string) : list string :=
  handleSubmit (fun arg calls => calls ++ [arg]) instruction [].

(** The texts of the example buttons. *)
Definition examples : list string :=
  ["Create a C# console application in Visual Studio that prints Hello World";
   "Open Notepad, write Hello World and save the file";
   "Open Chrome and go to google.com"].

(** The label of an example button: [{ex.substring(0, 40)}...]. *)
Definition exampleLabel (ex : string) : string :=
  Js.substring ex 0 40 +:+ "...".

(** A click on an example button: [setInstruction(ex)]. *)
Definition clickExample (ex : string) (instruction : string) : string := ex.

End VideoRequestForm.

(** ** [components/TutorialLibrary.tsx] *)
Module TutorialLibrary.

(** [interface Tutorial]. The two [number] fields are only displayed, never
    computed with: a count is a [Z], a size in megabytes a [Q]. *)
Record Tutorial := {
  id : string;
  goal : string;
  original_instruction : string;
  success_criteria : string;
  steps_count : Z;
  video_url : string;
  video_filename : string;
  download_url : string;
  file_size_mb : Q;
  created_at : string
}.

(** The [useState] cells of the component. *)
Record State := {
  tutorials : list Tutorial;
  loading : bool;
  error : option string;
  expandedId : option string;
  playingId : option string
}.

Definition setTutorials (v : list Tutorial) (s : State) : State :=
  {| tutorials := v; loading := loading s; error := error s;
     expandedId := expandedId s; playingId := playingId s |}.

Definition setLoading (v : bool) (s : State) : State :=
  {| tutorials := tutorials s; loading := v; error := error s;
     expandedId := expandedId s; playingId := playingId s |}.

Definition setError (v : option string) (s : State) : State :=
  {| tutorials := tutorials s; loading := loading s; error := v;
     expandedId := expandedId s; playingId := playingId s |}.

Definition setExpandedId (v : option string) (s : State) : State :=
  {| tutorials := tutorials s; loading := loading s; error := error s;
     expandedId := v; playingId := playingId s |}.

Definition setPlayingId (v : option string) (s : State) : State :=
  {| tutorials := tutorials s; loading := loading s; error := error s;
     expandedId := expandedId s; playingId := v |}.

(** An outstanding request together with what the rest of its handler reads
    from the render in which the handler was created. [handleDelete] reads
    [tutorials], [expandedId] and [playingId] from that render, not from the
    cells as they are when the reply arrives. *)
Inductive Request :=
| GetTutorials
| DeleteTutorial (id : string) (closure : State).

(** [response.data] of a successful reply. *)
Inductive Data :=
| DTutorials (tutorials : list Tutorial)
| DAck.

(** A reply: success with its data, or a failure with
    [err.response?.data?.error]. *)
Inductive Reply :=
| ROk (data : Data)
| RErr (error : option string).

(** The component in its environment: the cells, the requests that have not
    been answered yet (newest first) and the [alert] boxes shown so far
    (newest first). *)
Record World := {
  state : State;
  inflight : list Request;
  alerts : list string
}.

Definition upd (f : State -> State) (w : World) : World :=
  {| state := f (state w); inflight := inflight w; alerts := alerts w |}.

Definition send (r : Request) (w : World) : World :=
  {| state := state w; inflight := r :: inflight w; alerts := alerts w |}.

Definition alert (msg : string) (w : World) : World :=
  {| state := state w; inflight := inflight w; alerts := msg :: alerts w |}.

Definition answered (i : nat) (w : World) : World :=
  {| state := state w; inflight := delete i (inflight w); alerts := alerts w |}.

(** [fetchTutorials], up to its [await]. *)
Definition fetchTutorials (w : World) : World :=
  send GetTutorials (upd (setLoading true) w).

(** [handleDelete], up to its [await]; [confirmed] is the answer of
    [window.confirm]. *)
Definition handleDelete (id : string) (confirmed : bool) (w : World) : World :=
  if negb confirmed then w else send (DeleteTutorial id (state w)) w.

(** [t => t.id !== id]. *)
Definition keeps (deleted : string) (t : Tutorial) : bool :=
  negb (String.eqb (id t) deleted).

(** [x === id] for [x : string | null]. *)
Definition is_id (x : option string) (id : string) : bool :=
  match x with
  | Some y => String.eqb y id
  | None => false
  end.

(** [fetchTutorials] after its [await]: the [try] branch, the [catch]
    branch, and the [finally] block that follows either. *)
Definition fetchTutorials_then (l : list Tutorial) (w : World) : World :=
  let w := upd (setTutorials l) w in
  upd (setError None) w.

Definition fetchTutorials_catch (e : option string) (w : World) : World :=
  upd (setError (Some (Js.orElse e "Failed to load tutorials"))) w.

Definition fetchTutorials_finally (w : World) : World :=
  upd (setLoading false) w.

(** [handleDelete] after its [await]. [closure] holds the cells as the
    render that created the handler saw them: [tutorials], [expandedId] and
    [playingId] are read from it, the setters write the current cells. *)
Definition handleDelete_then (id : string) (closure : State) (w : World)
    : World :=
  let w := upd (setTutorials (List.filter (keeps id) (tutorials closure))) w in
  let w := if is_id (expandedId closure) id
           then upd (setExpandedId None) w else w in
  if is_id (playingId closure) id then upd (setPlayingId None) w else w.

Definition handleDelete_catch (e : option string) (w : World) : World :=
  alert (Js.orElse e "Failed to delete tutorial") w.

(** The rest of a handler after its [await], run on the reply. A reply whose
    data does not have the shape of the request is not modelled. *)
Definition resume (r : Request) (reply : Reply) (w : World) : option World :=
  match r, reply with
  | GetTutorials, ROk (DTutorials l) =>
      Some (fetchTutorials_finally (fetchTutorials_then l w))
  | GetTutorials, RErr e =>
      Some (fetchTutorials_finally (fetchTutorials_catch e w))
  | DeleteTutorial id closure, ROk _ => Some (handleDelete_then id closure w)
  | DeleteTutorial id closure, RErr e => Some (handleDelete_catch e w)
  | _, _ => None
  end.

(** [toggleExpand] and [togglePlay], as created by the current render. *)
Definition toggleExpand (id : string) (w : World) : World :=
  if is_id (expandedId (state w)) id
  then upd (setPlayingId None) (upd (setExpandedId None) w)
  else upd (setExpandedId (Some id)) w.

Definition togglePlay (id : string) (w : World) : World :=
  upd (setPlayingId (if is_id (playingId (state w)) id then None else Some id)) w.

Inductive Event :=
| EvRefresh
| EvDelete (id : string) (confirmed : bool)
| EvToggleExpand (id : string)
| EvTogglePlay (id : string)
| EvReply (i : nat) (reply : Reply).

Definition step (w : World) (e : Event) : option World :=
  match e with
  | EvRefresh => Some (fetchTutorials w)
  | EvDelete id confirmed => Some (handleDelete id confirmed w)
  | EvToggleExpand id => Some (toggleExpand id w)
  | EvTogglePlay id => Some (togglePlay id w)
  | EvReply i reply =>
      match inflight w !! i with
      | Some r => resume r reply (answered i w)
      | None => None
      end
  end.

(** A delete that is confirmed and answered before anything else happens:
    the reply is for the request just sent, the newest one. *)
Definition deleted (id : string) (reply : Reply) (w : World) : option World :=
  step (handleDelete id true w) (EvReply 0 reply).

(** *** What the component renders *)

(** One card of the grid: the tutorial, whether the card has the class
    [expanded], whether its video is shown (the play button then reads
    [Close]), and whether its details are shown. *)
Record Card := {
  cardTutorial : Tutorial;
  cardExpanded : bool;
  cardVideo : bool;
  cardDetails : bool
}.

(** The body of [tutorials.map(...)]. *)
Definition card (s : State) (t : Tutorial) : Card :=
  {| cardTutorial := t;
     cardExpanded := is_id (expandedId s) (id t);
     cardVideo := is_id (playingId s) (id t);
     cardDetails := is_id (expandedId s) (id t)
                    && negb (is_id (playingId s) (id t)) |}.

(** The four things the component returns: the spinner, the error with its
    retry button, the empty state, or the header (count and refresh button)
    with the grid of cards. *)
Inductive Screen :=
| Spinner
| ErrorState (msg : string)
| EmptyState
| Grid (count : nat) (cards : list Card).

(** The [return] statements of the component, in their order. *)
Definition view (s : State) : Screen :=
  let grid :=
    match tutorials s with
    | [] => EmptyState
    | l => Grid (length l) (map (card s) l)
    end in
  if loading s then Spinner
  else match error s with
       | Some e => if Js.truthy e then ErrorState e else grid
       | None => grid
       end.

(** The handlers the rendered screen has a control for: the retry and the
    refresh button call [fetchTutorials]; each card has its header, its play
    buttons and its delete button. A reply needs no control. *)
Definition offers (s : State) (e : Event) : bool :=
  match e, view s with
  | EvRefresh, (ErrorState _ | Grid _ _) => true
  | (EvDelete i _ | EvToggleExpand i | EvTogglePlay i), Grid _ _ =>
      existsb (fun t => String.eqb (id t) i) (tutorials s)
  | EvReply _ _, _ => true
  | _, _ => false
  end.

(** The cells of the first render. *)
Definition initial : State :=
  {| tutorials := []; loading := true; error := None;
     expandedId := None; playingId := None |}.

(** The component once mounted: the effect has called [fetchTutorials]. *)
Definition mounted : World :=
  fetchTutorials {| state := initial; inflight := []; alerts := [] |}.

(** A run in which every event is one the screen of the moment offers. *)
Fixpoint run (w : World) (es : list Event) : option World :=
  match es with
  | [] => Some w
  | e :: es =>
      if offers (state w) e
      then match step w e with
           | Some w' => run w' es
           | None => None
           end
      else None
  end.

Definition reachable (w : World) : Prop :=
  exists es, run mounted es = Some w.

(** The outstanding requests for the list. *)
Definition listRequests (w : World) : list Request :=
  List.filter (fun r => match r with GetTutorials => true | _ => false end)
    (inflight w).

(** What holds of the library between events the screen offers. *)
Definition tidy (w : World) : Prop :=
  length (listRequests w) = (if loading (state w) then 1 else 0) /\
  (forall e, error (state w) = Some e -> Js.truthy e = true) /\
  (forall i c, In (DeleteTutorial i c) (inflight w) ->
               exists t, In t (tutorials c) /\ id t = i).

End TutorialLibrary.

(** ** [types.ts] *)
Module Types.
Section Payloads.

(** The task plan and the result payload are edited and shown by components
    that take them as they are; the engine never looks inside. *)
Context {TaskPlan Results : Type}.

(** Modelled from the spec: the declaration of [JobStatus] in [types.ts],
    which the components import. The fields are those of the object
    [handleSubmitInstruction] builds and of the Job of the data model;
    [status] is the server's tag, compared as a string. *)
Record JobStatus := {
  id : string;
  status : string;
  message : string;
  instruction : string;
  task_plan : option TaskPlan;
  video_url : option string;
  video_filename : option string;
  results : option Results;
  error : option string;
  created_at : string
}.

End Payloads.
Arguments JobStatus : clear implicits.
End Types.

(** ** [App.tsx] *)
Module App.
Section Engine.

Context {TaskPlan Results : Type}.

Abbreviation JobStatus := (Types.JobStatus TaskPlan Results).

(** *** The cells of the component *)

Record State := {
  jobId : option string;
  jobStatus : option JobStatus;
  isLoading : bool;
  error : option string;
  showLibrary : bool
}.

Definition setJobId (v : option string) (s : State) : State :=
  {| jobId := v; jobStatus := jobStatus s; isLoading := isLoading s;
     error := error s; showLibrary := showLibrary s |}.

Definition setJobStatus (v : option JobStatus) (s : State) : State :=
  {| jobId := jobId s; jobStatus := v; isLoading := isLoading s;
     error := error s; showLibrary := showLibrary s |}.

Definition setIsLoading (v : bool) (s : State) : State :=
  {| jobId := jobId s; jobStatus := jobStatus s; isLoading := v;
     error := error s; showLibrary := showLibrary s |}.

Definition setError (v : option string) (s : State) : State :=
  {| jobId := jobId s; jobStatus := jobStatus s; isLoading := isLoading s;
     error := v; showLibrary := showLibrary s |}.

Definition setShowLibrary (v : bool) (s : State) : State :=
  {| jobId := jobId s; jobStatus := jobStatus s; isLoading := isLoading s;
     error := error s; showLibrary := v |}.

(** [setJobStatus(prev => f(prev))]: the update reads the cell as it is when
    the update is applied. *)
Definition setJobStatusWith (f : option JobStatus -> option JobStatus)
    (s : State) : State :=
  setJobStatus (f (jobStatus s)) s.

(** *** The environment of the component *)

(** A request that was sent and not answered yet. The job id in it is the
    one the handler (or the interval callback) read from its render. *)
Inductive Request :=
| GeneratePlan (instruction : string)
| GetStatus (jobId : string)
| PutTaskPlan (jobId : string) (plan : TaskPlan)
| PostExecute (jobId : string)
| PostRegenerate (jobId : string).

(** [response.data] of a successful reply. *)
Inductive Data :=
| DJobId (job_id : string)
| DStatus (data : JobStatus)
| DOther.

(** A reply: success with its data, or a failure with
    [err.response?.data?.error]. *)
Inductive Reply :=
| ROk (data : Data)
| RErr (error : option string).

(** A live interval: the job id its callback closed over as [jobId], and
    its period in milliseconds. *)
Record Interval := {
  target : string;
  period : Z
}.

(** What the component did to the outside, and what the server told it. *)
Inductive Obs :=
| Sent (r : Request)
| Created (job_id : string)
| ConsoleError (msg : string).

(** The component in its environment.
    - [pollingRef] is [pollingRef.current]; interval handles are positive
      numbers, so a handle is truthy exactly when it is not [null];
    - [effectDeps] and [effectCleanup] are what React keeps of the polling
      effect: the dependencies of its last run and whether that run returned
      a cleanup function;
    - [timers] is the browser's table of live intervals;
    - [inflight] lists the unanswered requests, newest first;
    - [log] is the history of [Obs], newest first. *)
Record World := {
  state : State;
  pollingRef : option positive;
  effectDeps : option string * option string;
  effectCleanup : bool;
  timers : gmap positive Interval;
  nextTimer : positive;
  inflight : list Request;
  log : list Obs
}.

Definition upd (f : State -> State) (w : World) : World :=
  {| state := f (state w); pollingRef := pollingRef w;
     effectDeps := effectDeps w; effectCleanup := effectCleanup w;
     timers := timers w; nextTimer := nextTimer w;
     inflight := inflight w; log := log w |}.

Definition note (o : Obs) (w : World) : World :=
  {| state := state w; pollingRef := pollingRef w;
     effectDeps := effectDeps w; effectCleanup := effectCleanup w;
     timers := timers w; nextTimer := nextTimer w;
     inflight := inflight w; log := o :: log w |}.

Definition send (r : Request) (w : World) : World :=
  note (Sent r)
    {| state := state w; pollingRef := pollingRef w;
       effectDeps := effectDeps w; effectCleanup := effectCleanup w;
       timers := timers w; nextTimer := nextTimer w;
       inflight := r :: inflight w; log := log w |}.

Definition answered (i : nat) (w : World) : World :=
  {| state := state w; pollingRef := pollingRef w;
     effectDeps := effectDeps w; effectCleanup := effectCleanup w;
     timers := timers w; nextTimer := nextTimer w;
     inflight := delete i (inflight w); log := log w |}.

(** [clearInterval(t)]: a handle that is not live is ignored. *)
Definition clearInterval (t : positive) (w : World) : World :=
  {| state := state w; pollingRef := pollingRef w;
     effectDeps := effectDeps w; effectCleanup := effectCleanup w;
     timers := delete t (timers w); nextTimer := nextTimer w;
     inflight := inflight w; log := log w |}.

(** The interval [setInterval(callback, 2000)] makes, where the callback
    closed over [j] as its [jobId]. *)
Definition poller (j : string) : Interval :=
  {| target := j; period := 2000 |}.

(** [pollingRef.current = setInterval(callback, 2000)]. *)
Definition armPolling (j : string) (w : World) : World :=
  {| state := state w; pollingRef := Some (nextTimer w);
     effectDeps := effectDeps w; effectCleanup := effectCleanup w;
     timers := <[nextTimer w := poller j]> (timers w);
     nextTimer := Pos.succ (nextTimer w);
     inflight := inflight w; log := log w |}.

(** [if (pollingRef.current) clearInterval(pollingRef.current)]. *)
Definition clearPolling (w : World) : World :=
  match pollingRef w with
  | Some t => clearInterval t w
  | None => w
  end.

Definition setEffect (d : option string * option string) (cleanup : bool)
    (w : World) : World :=
  {| state := state w; pollingRef := pollingRef w;
     effectDeps := d; effectCleanup := cleanup;
     timers := timers w; nextTimer := nextTimer w;
     inflight := inflight w; log := log w |}.

(** *** The polling effect *)

(** [['completed', 'failed', 'plan_ready']]. *)
Definition settled : list string := ["completed"; "failed"; "plan_ready"].

(** The dependency array [[jobId, jobStatus?.status]]. *)
Definition deps (s : State) : option string * option string :=
  (jobId s, Types.status <$> jobStatus s).

(** The guard of the effect,
    [jobId && jobStatus && !settled.includes(jobStatus.status)],
    with the job id the interval callback closes over when it holds. *)
Definition pollTarget (s : State) : option string :=
  match jobId s, jobStatus s with
  | Some j, Some js =>
      if Js.truthy j && negb (Js.includes settled (Types.status js))
      then Some j else None
  | _, _ => None
  end.

(** The cleanup function of the last run, if that run returned one. *)
Definition runCleanup (w : World) : World :=
  if effectCleanup w then clearPolling w else w.

(** The body of the effect, run for the cells as they are now. *)
Definition runEffect (w : World) : World :=
  match pollTarget (state w) with
  | Some j => setEffect (deps (state w)) true (armPolling j w)
  | None => setEffect (deps (state w)) false w
  end.

(** A render: when a dependency changed since the effect last ran, the
    cleanup of that run is called and then the effect runs again. *)
Definition render (w : World) : World :=
  if decide (deps (state w) = effectDeps w) then w
  else runEffect (runCleanup w).

(** *** The handlers *)

(** The job id a handler sees as present: [jobId] is not [null] and truthy. *)
Definition activeId (s : State) : option string :=
  match jobId s with
  | Some j => if Js.truthy j then Some j else None
  | None => None
  end.

(** The job [handleSubmitInstruction] builds from the reply; [now] is
    [new Date().toISOString()]. *)
Definition pendingJob (job_id instruction now : string) : JobStatus :=
  {| Types.id := job_id;
     Types.status := "pending";
     Types.message := "Generating plan";
     Types.instruction := instruction;
     Types.task_plan := None;
     Types.video_url := None;
     Types.video_filename := None;
     Types.results := None;
     Types.error := None;
     Types.created_at := now |}.

(** [{ ...prev, task_plan: plan }]. *)
Definition withTaskPlan (plan : TaskPlan) (prev : JobStatus) : JobStatus :=
  {| Types.id := Types.id prev;
     Types.status := Types.status prev;
     Types.message := Types.message prev;
     Types.instruction := Types.instruction prev;
     Types.task_plan := Some plan;
     Types.video_url := Types.video_url prev;
     Types.video_filename := Types.video_filename prev;
     Types.results := Types.results prev;
     Types.error := Types.error prev;
     Types.created_at := Types.created_at prev |}.

(** [{ ...prev, status: 'recording', message: 'Starting recording' }]. *)
Definition withRecording (prev : JobStatus) : JobStatus :=
  {| Types.id := Types.id prev;
     Types.status := "recording";
     Types.message := "Starting recording";
     Types.instruction := Types.instruction prev;
     Types.task_plan := Types.task_plan prev;
     Types.video_url := Types.video_url prev;
     Types.video_filename := Types.video_filename prev;
     Types.results := Types.results prev;
     Types.error := Types.error prev;
     Types.created_at := Types.created_at prev |}.

(** [{ ...prev, status: 'recording', message: 'Regenerating video',
       video_url: null, video_filename: null }]. *)
Definition withRegenerating (prev : JobStatus) : JobStatus :=
  {| Types.id := Types.id prev;
     Types.status := "recording";
     Types.message := "Regenerating video";
     Types.instruction := Types.instruction prev;
     Types.task_plan := Types.task_plan prev;
     Types.video_url := None;
     Types.video_filename := None;
     Types.results := Types.results prev;
     Types.error := Types.error prev;
     Types.created_at := Types.created_at prev |}.

(** [handleSubmitInstruction], up to its [await]. *)
Definition handleSubmitInstruction (instruction : string) (w : World) : World :=
  let w := upd (setIsLoading true) w in
  let w := upd (setError None) w in
  let w := upd (setJobStatus None) w in
  let w := upd (setJobId None) w in
  let w := upd (setShowLibrary false) w in
  send (GeneratePlan instruction) w.

(** [handleSaveTaskPlan], up to its [await]. *)
Definition handleSaveTaskPlan (plan : TaskPlan) (w : World) : World :=
  match activeId (state w) with
  | None => w
  | Some j => send (PutTaskPlan j plan) w
  end.

(** [handleExecute], up to its [await]. *)
Definition handleExecute (w : World) : World :=
  match activeId (state w) with
  | None => w
  | Some j =>
      let w := upd (setIsLoading true) w in
      let w := upd (setError None) w in
      send (PostExecute j) w
  end.

(** [handleRegenerate], up to its [await]. *)
Definition handleRegenerate (w : World) : World :=
  match activeId (state w) with
  | None => w
  | Some j =>
      let w := upd (setIsLoading true) w in
      let w := upd (setError None) w in
      send (PostRegenerate j) w
  end.

(** [resetAll]. *)
Definition resetAll (w : World) : World :=
  let w := upd (setJobId None) w in
  let w := upd (setJobStatus None) w in
  let w := upd (setError None) w in
  let w := upd (setIsLoading false) w in
  let w := upd (setShowLibrary true) w in
  clearPolling w.

(** The interval callback, up to its [await]; [j] is the job id it closed
    over. *)
Definition tick (j : string) (w : World) : World :=
  send (GetStatus j) w.

(** [handleSubmitInstruction] after its [await]: the [try] branch with the
    reply's [job_id], and the [catch] branch. [now] is the clock when the
    branch runs. *)
Definition handleSubmitInstruction_then (instruction job_id now : string)
    (w : World) : World :=
  let w := note (Created job_id) w in
  let w := upd (setJobId (Some job_id)) w in
  upd (setJobStatus (Some (pendingJob job_id instruction now))) w.

Definition handleSubmitInstruction_catch (e : option string) (w : World)
    : World :=
  let w := upd (setError (Some (Js.orElse e "Error generating plan"))) w in
  upd (setIsLoading false) w.

(** The interval callback after its [await]: the reply's data becomes the
    job whatever job it is about; on a settled status the interval that
    [pollingRef] names now is cleared. The [catch] branch only logs. *)
Definition tick_then (data : JobStatus) (w : World) : World :=
  let w := upd (setJobStatus (Some data)) w in
  if Js.includes settled (Types.status data)
  then
    let w := upd (setIsLoading false) w in
    clearPolling w
  else w.

Definition tick_catch (w : World) : World :=
  note (ConsoleError "Polling error:") w.

(** [handleSaveTaskPlan] after its [await]. *)
Definition handleSaveTaskPlan_then (plan : TaskPlan) (w : World) : World :=
  upd (setJobStatusWith (fmap (withTaskPlan plan))) w.

Definition handleSaveTaskPlan_catch (e : option string) (w : World) : World :=
  upd (setError (Some (Js.orElse e "Error saving plan"))) w.

(** [handleExecute] after its [await]. *)
Definition handleExecute_then (w : World) : World :=
  upd (setJobStatusWith (fmap withRecording)) w.

Definition handleExecute_catch (e : option string) (w : World) : World :=
  let w := upd (setError (Some (Js.orElse e "Error executing"))) w in
  upd (setIsLoading false) w.

(** [handleRegenerate] after its [await]. *)
Definition handleRegenerate_then (w : World) : World :=
  upd (setJobStatusWith (fmap withRegenerating)) w.

Definition handleRegenerate_catch (e : option string) (w : World) : World :=
  let w := upd (setError (Some (Js.orElse e "Error regenerating"))) w in
  upd (setIsLoading false) w.

(** The rest of a handler or of the interval callback after its [await], run
    on the reply; [now] is the clock at that time. A reply whose data does
    not have the shape of the request is not modelled; the replies to a
    save, an execute and a regenerate request are not looked at. *)
Definition resume (r : Request) (reply : Reply) (now : string) (w : World)
    : option World :=
  match r, reply with
  | GeneratePlan instruction, ROk (DJobId job_id) =>
      Some (handleSubmitInstruction_then instruction job_id now w)
  | GeneratePlan _, RErr e => Some (handleSubmitInstruction_catch e w)
  | GetStatus _, ROk (DStatus data) => Some (tick_then data w)
  | GetStatus _, RErr _ => Some (tick_catch w)
  | PutTaskPlan _ plan, ROk _ => Some (handleSaveTaskPlan_then plan w)
  | PutTaskPlan _ _, RErr e => Some (handleSaveTaskPlan_catch e w)
  | PostExecute _, ROk _ => Some (handleExecute_then w)
  | PostExecute _, RErr e => Some (handleExecute_catch e w)
  | PostRegenerate _, ROk _ => Some (handleRegenerate_then w)
  | PostRegenerate _, RErr e => Some (handleRegenerate_catch e w)
  | _, _ => None
  end.

(** *** Steps *)

Inductive Event :=
| EvSubmit (instruction : string)
| EvSave (plan : TaskPlan)
| EvExecute
| EvRegenerate
| EvReset
| EvTick (t : positive)
| EvReply (i : nat) (reply : Reply) (now : string).

(** What the event's callback does, before React renders. An interval that
    is not live does not fire, and only an outstanding request is answered. *)
Definition handle (w : World) (e : Event) : option World :=
  match e with
  | EvSubmit instruction => Some (handleSubmitInstruction instruction w)
  | EvSave plan => Some (handleSaveTaskPlan plan w)
  | EvExecute => Some (handleExecute w)
  | EvRegenerate => Some (handleRegenerate w)
  | EvReset => Some (resetAll w)
  | EvTick t => (fun iv => tick (target iv) w) <$> timers w !! t
  | EvReply i reply now =>
      match inflight w !! i with
      | Some r => resume r reply now (answered i w)
      | None => None
      end
  end.

Definition step (w : World) (e : Event) : option World :=
  render <$> handle w e.

Fixpoint run (w : World) (es : list Event) : option World :=
  match es with
  | [] => Some w
  | e :: es => match step w e with
               | Some w' => run w' es
               | None => None
               end
  end.

(** The component after its first render: no job, the effect has run once
    without arming anything. *)
Definition mounted : World :=
  {| state := {| jobId := None; jobStatus := None; isLoading := false;
                 error := None; showLibrary := true |};
     pollingRef := None;
     effectDeps := (None, None);
     effectCleanup := false;
     timers := ∅;
     nextTimer := 1%positive;
     inflight := [];
     log := [] |}.

Definition reachable (w : World) : Prop :=
  exists es, run mounted es = Some w.

(** The id the plan-creation endpoint returned last, read off the history. *)
Fixpoint lastCreated (l : list Obs) : option string :=
  match l with
  | [] => None
  | Created j :: _ => Some j
  | _ :: l => lastCreated l
  end.

(** *** The polling discipline *)

(** Some interval is live. *)
Definition polling (w : World) : Prop := timers w <> ∅.

(** What holds between two steps: the effect has run for the cells as they
    are; when its guard holds, the one live interval is the one
    [pollingRef] names and its callback closed over the current job id, and
    the effect's cleanup is registered; when it does not hold, no interval is
    live and no cleanup is registered; and the job id, when set, is the one
    the plan-creation endpoint returned last. *)
Definition polling_inv (w : World) : Prop :=
  effectDeps w = deps (state w) /\
  match pollTarget (state w) with
  | Some j =>
      effectCleanup w = true /\
      exists t, pollingRef w = Some t /\ timers w = {[ t := poller j ]}
  | None => effectCleanup w = false /\ timers w = ∅
  end /\
  (forall j, jobId (state w) = Some j -> lastCreated (log w) = Some j).

(** What a callback may do to the polling state before React renders: it
    never arms an interval and never touches what React keeps of the effect;
    it either leaves the intervals alone or clears the one [pollingRef]
    names, and then the guard of the effect no longer holds. *)
Definition handled (w w1 : World) : Prop :=
  pollingRef w1 = pollingRef w /\
  effectDeps w1 = effectDeps w /\
  effectCleanup w1 = effectCleanup w /\
  (timers w1 = timers w \/
   (timers w1 = timers (clearPolling w) /\ pollTarget (state w1) = None)) /\
  (forall j, jobId (state w1) = Some j -> lastCreated (log w1) = Some j).

(** The requests whose successful reply writes a status outside [settled]
    or a new job into the cells. *)
Definition rearms (r : Request) : bool :=
  match r with
  | PostExecute _ | PostRegenerate _ | GetStatus _ | GeneratePlan _ => true
  | PutTaskPlan _ _ => false
  end.

(** *** What the component renders *)

(** The handler a plan editor gets as [onExecute]. *)
Inductive Handler := HExecute | HRegenerate.

(** The props of [StatusIndicator], [TaskPlanEditor] and [VideoPlayer], as
    [App] passes them; [onSave] is always [handleSaveTaskPlan] and
    [onRegenerate] always [handleRegenerate]. *)
Record Indicator := {
  indicatorStatus : string;
  indicatorMessage : string;
  indicatorError : option string
}.

Record Editor := {
  taskPlan : TaskPlan;
  onExecute : Handler;
  editorIsLoading : bool
}.

Record Player := {
  videoUrl : string;
  videoFilename : string;
  playerIsLoading : bool;
  playerResults : option Results
}.

(** What [App] returns, part by part in the order of the JSX: the reset
    button, the request form (with its [isLoading] prop), the error banner,
    the status indicator, the plan editors, the video player, and how many
    [TutorialLibrary] elements there are. *)
Record View := {
  resetButton : bool;
  form : option bool;
  errorBanner : option string;
  statusIndicator : option Indicator;
  editors : list Editor;
  videoPlayer : option Player;
  libraries : nat
}.

(** [x && ...] for [x : string | null]: the string when it is truthy. *)
Definition whenTruthy (x : option string) : option string :=
  match x with
  | Some s => if Js.truthy s then Some s else None
  | None => None
  end.

(** [jobStatus?.status === 'completed']. *)
Definition isCompleted (s : State) : bool :=
  match jobStatus s with
  | Some js => String.eqb (Types.status js) "completed"
  | None => false
  end.

Definition view (s : State) : View :=
  let hasId := bool_decide (activeId s <> None) in
  {| resetButton := hasId;
     form := if hasId then None else Some (isLoading s);
     errorBanner := whenTruthy (error s);
     statusIndicator :=
       (fun js => {| indicatorStatus := Types.status js;
                     indicatorMessage := Types.message js;
                     indicatorError := Types.error js |}) <$> jobStatus s;
     editors :=
       match jobStatus s with
       | None => []
       | Some js =>
           (match Types.task_plan js with
            | Some p =>
                if isCompleted s then []
                else [{| taskPlan := p; onExecute := HExecute;
                         editorIsLoading := isLoading s |}]
            | None => []
            end)
           ++
           (if isCompleted s then
              match whenTruthy (Types.video_url js), Types.task_plan js with
              | Some _, Some p =>
                  [{| taskPlan := p; onExecute := HRegenerate;
                      editorIsLoading := isLoading s |}]
              | _, _ => []
              end
            else [])
       end;
     videoPlayer :=
       match jobStatus s with
       | None => None
       | Some js =>
           if isCompleted s then
             match whenTruthy (Types.video_url js) with
             | Some u =>
                 Some {| videoUrl := u;
                         videoFilename :=
                           Js.orElse (Types.video_filename js) EmptyString;
                         playerIsLoading := isLoading s;
                         playerResults := Types.results js |}
             | None => None
             end
           else None
       end;
     libraries :=
       (if showLibrary s && negb hasId then 1 else 0)
       + (if isCompleted s then 1 else 0) |}.

(** *** The addresses of the requests *)

(** The job id in the path of a request. *)
Definition jobOf (r : Request) : option string :=
  match r with
  | GeneratePlan _ => None
  | GetStatus j | PutTaskPlan j _ | PostExecute j | PostRegenerate j => Some j
  end.

(** The ids the plan-creation endpoint returned, newest first. *)
Fixpoint created (l : list Obs) : list string :=
  match l with
  | [] => []
  | Created j :: l => j :: created l
  | _ :: l => created l
  end.

(** Every request in the history that names a job names one that had been
    created before the request was sent. *)
Fixpoint addressed (l : list Obs) : Prop :=
  match l with
  | [] => True
  | Sent r :: l =>
      match jobOf r with
      | Some j => In j (created l)
      | None => True
      end /\ addressed l
  | _ :: l => addressed l
  end.

(** The history is well addressed and holds every outstanding request. *)
Definition recorded (w : World) : Prop :=
  addressed (log w) /\ forall r, In r (inflight w) -> In (Sent r) (log w).

End Engine.
End App.

(** ** Runs of [App] used as examples

    The plan is a list of step descriptions and the results are a text. *)
Module Scenario.
Import App.

Abbreviation World := (@App.World (list string) string).
Abbreviation Event := (@App.Event (list string) string).

(** What the server reports for job [abc]. *)
Definition report (status : string) (video : option string)
    : Types.JobStatus (list string) string :=
  {| Types.id := "abc";
     Types.status := status;
     Types.message := "";
     Types.instruction := "Open Notepad, write Hello World and save the file";
     Types.task_plan := Some ["Open Notepad"; "Type Hello World"; "Save"];
     Types.video_url := video;
     Types.video_filename := video;
     Types.results := None;
     Types.error := None;
     Types.created_at := "t0" |}.

(** A submission and the reply that creates job [abc]: polling starts. *)
Definition started : list Event :=
  [EvSubmit "Open Notepad, write Hello World and save the file";
   EvReply 0 (ROk (DJobId "abc")) "t0"].

(** The first tick: a status request is outstanding. *)
Definition polled : list Event :=
  started ++ [EvTick 1%positive].

(** A reset while that status request is outstanding. *)
Definition reset_in_flight : list Event :=
  polled ++ [EvReset].

(** After the reset a new job [xyz] is created, the status request for
    [abc] still outstanding. *)
Definition replaced_in_flight : list Event :=
  reset_in_flight ++ [EvSubmit "Open Chrome"; EvReply 0 (ROk (DJobId "xyz")) "t1"].

(** The first status reply says [plan_ready]. *)
Definition planned : list Event :=
  polled ++ [EvReply 0 (ROk (DStatus (report "plan_ready" None))) "t1"].

(** Two ticks before any reply; the reply to the second request arrives
    first and says [plan_ready]; the first request is still outstanding. *)
Definition settled_with_one_outstanding : list Event :=
  polled ++ [EvTick 1%positive;
             EvReply 0 (ROk (DStatus (report "plan_ready" None))) "t1"].

(** The plan is saved, or executed, from the plan editor. *)
Definition saving : list Event :=
  planned ++ [EvSave ["Open Notepad"; "Type Hello"; "Save as hello.txt"]].

Definition executing : list Event :=
  planned ++ [EvExecute].

(** The execution is accepted, the next poll says [completed], and the
    video is regenerated. *)
Definition regenerating : list Event :=
  executing ++
  [EvReply 0 (ROk DOther) "t2";
   EvTick 2%positive;
   EvReply 0 (ROk (DStatus (report "completed" (Some "/media/abc.mp4")))) "t3";
   EvRegenerate].

(** The state a run of the mounted component ends in. *)
Definition after (es : list Event) : World :=
  default mounted (run mounted es).

End Scenario.

(** ** Runs of [TutorialLibrary] used as examples *)
Module LibraryScenario.
Import TutorialLibrary.

(** A library entry with the given id and goal. *)
Definition entry (i goal : string) : Tutorial :=
  {| id := i;
     goal := goal;
     original_instruction := goal;
     success_criteria := "done";
     steps_count := 3;
     video_url := "/media/" +:+ i +:+ ".mp4";
     video_filename := i +:+ ".mp4";
     download_url := "/download/" +:+ i;
     file_size_mb := (25 # 2)%Q;
     created_at := "t0" |}.

Definition three : list Tutorial :=
  [entry "1" "Open Notepad"; entry "2" "Open Chrome"; entry "3" "Open Paint"].

(** The list arrives, the second entry is played, and its delete is
    confirmed. *)
Definition browsing : list Event :=
  [EvReply 0 (ROk (DTutorials three)); EvTogglePlay "2"; EvDelete "2" true].

(** The list arrives, the second entry is expanded, and the first one is
    played. *)
Definition expanding : list Event :=
  [EvReply 0 (ROk (DTutorials three)); EvToggleExpand "2"; EvTogglePlay "1"].

(** The list arrives, the delete buttons of the first and of the second
    entry are clicked and confirmed one after the other, and the server
    accepts the first delete. *)
Definition two_deletes_one_answered : list Event :=
  [EvReply 0 (ROk (DTutorials three)); EvDelete "1" true; EvDelete "2" true;
   EvReply 1 (ROk DAck)].

(** ... and then the server accepts the second delete as well. *)
Definition two_deletes_answered : list Event :=
  two_deletes_one_answered ++ [EvReply 0 (ROk DAck)].

(** The list arrives, the delete of the second entry is confirmed, and
    while its request is outstanding the entry is expanded and played. *)
Definition selected_while_deleting : list Event :=
  [EvReply 0 (ROk (DTutorials three)); EvDelete "2" true;
   EvToggleExpand "2"; EvTogglePlay "2"].

(** ... and then the server accepts the delete. *)
Definition selected_and_deleted : list Event :=
  selected_while_deleting ++ [EvReply 0 (ROk DAck)].

(** The state a run of the mounted library ends in. *)
Definition after (es : list Event) : World :=
  default mounted (run mounted es).

End LibraryScenario.

(** * Properties *)

(** ** The request form *)
Section FormProperties.

Import Js VideoRequestForm.

Lemma blank_nil : blank EmptyString.
Proof. constructor. Qed.

Lemma blank_cons c s : blank (String c s) <-> isWhiteSpace c = true /\ blank s.
Proof.
  unfold blank; simpl. split.
  - intros H; inversion H; subst; tauto.
  - intros [Hc Hs]; constructor; assumption.
Qed.

Lemma blank_dec s : {blank s} + {~ blank s}.
Proof.
  induction s as [|c s [IH|IH]].
  - left; apply blank_nil.
  - destruct (isWhiteSpace c) eqn:Hc.
    + left. now apply blank_cons.
    + right. rewrite blank_cons. intros [Hc' _]. congruence.
  - right. rewrite blank_cons. tauto.
Qed.

Lemma trimEnd_empty s : trimEnd s = EmptyString <-> blank s.
Proof.
  induction s as [|c s IH]; simpl.
  - split; [intros _; apply blank_nil | reflexivity].
  - rewrite blank_cons. destruct (trimEnd s) as [|d r] eqn:Hr.
    + destruct (isWhiteSpace c); split; try tauto; try discriminate.
      intros [? _]; discriminate.
    + split; [discriminate|]. intros [_ Hb]. apply IH in Hb. discriminate.
Qed.

Lemma trimStart_blank s : blank (trimStart s) <-> blank s.
Proof.
  induction s as [|c s IH]; simpl; [reflexivity|].
  destruct (isWhiteSpace c) eqn:Hc; [|reflexivity].
  rewrite IH, blank_cons. tauto.
Qed.

Lemma trim_empty s : trim s = EmptyString <-> blank s.
Proof. unfold trim. rewrite trimEnd_empty. apply trimStart_blank. Qed.

Lemma truthy_false s : truthy s = false <-> s = EmptyString.
Proof. destruct s; simpl; split; congruence. Qed.

Lemma truthy_trim s : truthy (trim s) = false <-> blank s.
Proof. rewrite truthy_false. apply trim_empty. Qed.

(** [trimStart] drops a blank prefix and nothing else. *)
Lemma trimStart_split s :
  exists pre, s = pre +:+ trimStart s /\ blank pre.
Proof.
  induction s as [|c s [pre [Hs Hpre]]]; simpl.
  - exists EmptyString. split; [reflexivity | apply blank_nil].
  - destruct (isWhiteSpace c) eqn:Hc.
    + exists (String c pre). split; [|now apply blank_cons].
      change (String c s = String c (pre +:+ trimStart s)). f_equal. exact Hs.
    + exists EmptyString. split; [reflexivity | apply blank_nil].
Qed.

(** [trimEnd] drops a blank suffix and nothing else. *)
Lemma trimEnd_split s :
  exists post, s = trimEnd s +:+ post /\ blank post.
Proof.
  induction s as [|c s [post [Hs Hpost]]]; simpl.
  - exists EmptyString. split; [reflexivity | apply blank_nil].
  - destruct (trimEnd s) as [|d r] eqn:Hr.
    + change (s = post) in Hs. subst post. destruct (isWhiteSpace c) eqn:Hc.
      * exists (String c s). split; [reflexivity | now apply blank_cons].
      * exists s. split; [reflexivity | assumption].
    + exists post. split; [|assumption].
      change (String c s = String c (String d r +:+ post)). f_equal. exact Hs.
Qed.

(** What [trim] returns is the input without a blank prefix and a blank
    suffix. *)
Lemma trim_split s :
  exists pre post, s = pre +:+ trim s +:+ post /\ blank pre /\ blank post.
Proof.
  destruct (trimStart_split s) as [pre [Hs Hpre]].
  destruct (trimEnd_split (trimStart s)) as [post [Ht Hpost]].
  exists pre, post. unfold trim. split; [|tauto].
  rewrite <- Ht. exact Hs.
Qed.

(** The result of [trimStart] does not start with white space. *)
Lemma trimStart_head s c r : trimStart s = String c r -> isWhiteSpace c = false.
Proof.
  induction s as [|d s IH]; simpl; [discriminate|].
  destruct (isWhiteSpace d) eqn:Hd; [exact IH|].
  intros H; injection H as -> _. exact Hd.
Qed.

Lemma trimEnd_head s c r : trimEnd s = String c r -> exists s', s = String c s'.
Proof.
  destruct s as [|d s]; simpl; [discriminate|].
  destruct (trimEnd s); [destruct (isWhiteSpace d)|];
    intros H; try discriminate; injection H as -> _; eauto.
Qed.

(** The result of [trim] does not start with white space. *)
Lemma trim_head s c r : trim s = String c r -> isWhiteSpace c = false.
Proof.
  unfold trim. intros H. destruct (trimEnd_head _ _ _ H) as [s' Hs'].
  eapply trimStart_head, Hs'.
Qed.

Lemma append_nil_l (b : string) : EmptyString +:+ b = b.
Proof. reflexivity. Qed.

Lemma append_cons c (a b : string) : String c a +:+ b = String c (a +:+ b).
Proof. reflexivity. Qed.

Lemma append_empty (a b : string) :
  a +:+ b = EmptyString -> a = EmptyString /\ b = EmptyString.
Proof.
  destruct a; [rewrite append_nil_l; tauto | rewrite append_cons; discriminate].
Qed.

(** The result of [trimEnd] does not end with white space: nothing blank
    and non-empty can be split off its end. *)
Lemma trimEnd_last s a b :
  trimEnd s = a +:+ b -> blank b -> b = EmptyString.
Proof.
  revert a b. induction s as [|c s IH]; simpl; intros a b Hab Hb.
  - symmetry in Hab. now apply append_empty in Hab.
  - destruct (trimEnd s) as [|d r] eqn:Hr.
    + destruct (isWhiteSpace c) eqn:Hc.
      * symmetry in Hab. now apply append_empty in Hab.
      * destruct a as [|a0 a].
        -- rewrite append_nil_l in Hab. subst b.
           apply blank_cons in Hb. destruct Hb; congruence.
        -- rewrite append_cons in Hab. injection Hab as _ Hab.
           symmetry in Hab. now apply append_empty in Hab.
    + destruct a as [|a0 a].
      * rewrite append_nil_l in Hab. subst b. apply blank_cons in Hb as [_ Hb].
        specialize (IH EmptyString (String d r) eq_refl Hb). discriminate.
      * rewrite append_cons in Hab. injection Hab as _ Hab. now apply (IH a).
Qed.

(** The result of [trim] does not end with white space. *)
Lemma trim_last s a b : trim s = a +:+ b -> blank b -> b = EmptyString.
Proof. apply trimEnd_last. Qed.

(** TAB and NBSP are trimmed like a space; inner white space stays. *)
Example trim_example :
  trim (String (ascii_of_nat 9) (String (ascii_of_nat 160)
          (" Open  Chrome " +:+ String (ascii_of_nat 10) EmptyString)))
  = "Open  Chrome".
Proof. reflexivity. Qed.

Context {TaskPlan Results : Type}.

(** C10. A submission of the request form calls [onSubmit] exactly when the
    instruction has a code unit that is not white space, and then once, with
    the trimmed instruction; for an empty or white-space-only instruction
    nothing is called and the parent is left as it was, so [App] sends no
    plan request and no job starts. The trimmed instruction is the
    instruction without a blank prefix and a blank suffix, and has no white
    space at either end. The submit button is disabled for exactly the blank
    instructions while nothing is loading. *)
Theorem handleSubmit_calls_onSubmit_iff_not_blank (instruction : string) :
  (invocations instruction = [trim instruction] <-> ~ blank instruction) /\
  (invocations instruction = [] <-> blank instruction) /\
  (trim instruction = EmptyString <-> blank instruction) /\
  (exists pre post,
      instruction = pre +:+ trim instruction +:+ post /\
      blank pre /\ blank post) /\
  (forall c r, trim instruction = String c r -> isWhiteSpace c = false) /\
  (forall a b, trim instruction = a +:+ b -> blank b -> b = EmptyString) /\
  (forall (S : Type) (onSubmit : string -> S -> S) (parent : S),
      (~ blank instruction ->
       handleSubmit onSubmit instruction parent
       = onSubmit (trim instruction) parent) /\
      (blank instruction ->
       handleSubmit onSubmit instruction parent = parent)) /\
  (forall w : @App.World TaskPlan Results,
      blank instruction ->
      handleSubmit App.handleSubmitInstruction instruction w = w) /\
  (submitDisabled false instruction = true <-> blank instruction).
Proof.
  assert (forall (S : Type) (onSubmit : string -> S -> S) (parent : S),
      (~ blank instruction ->
       handleSubmit onSubmit instruction parent
       = onSubmit (trim instruction) parent) /\
      (blank instruction ->
       handleSubmit onSubmit instruction parent = parent)) as Hgen.
  { intros S onSubmit parent. unfold handleSubmit.
    destruct (truthy (trim instruction)) eqn:Ht; split; intros Hb;
      try reflexivity.
    - apply truthy_trim in Hb. congruence.
    - apply truthy_trim in Ht. contradiction. }
  assert (invocations instruction
          = if blank_dec instruction then [] else [trim instruction]) as Hinv.
  { unfold invocations.
    destruct (Hgen (list string) (fun arg calls => calls ++ [arg]) [])
      as [Hcall Hskip].
    destruct (blank_dec instruction) as [Hb|Hb]; auto. }
  split; [|split; [|split; [|split; [|split; [|split; [|split; [|split]]]]]]].
  - rewrite Hinv. destruct (blank_dec instruction) as [Hb|Hb].
    + split; [discriminate | contradiction].
    + split; [intros _; exact Hb | reflexivity].
  - rewrite Hinv. destruct (blank_dec instruction) as [Hb|Hb].
    + split; [intros _; exact Hb | reflexivity].
    + split; [discriminate | contradiction].
  - apply trim_empty.
  - apply trim_split.
  - apply trim_head.
  - apply trim_last.
  - exact Hgen.
  - intros w Hb. now apply Hgen.
  - unfold submitDisabled. simpl. rewrite negb_true_iff. apply truthy_trim.
Qed.

End FormProperties.

(** ** The tutorial library *)
Section LibraryProperties.

Import TutorialLibrary.

Lemma keeps_true del t : keeps del t = true <-> id t <> del.
Proof.
  unfold keeps. rewrite negb_true_iff. apply String.eqb_neq.
Qed.

Lemma is_id_true x i : is_id x i = true <-> x = Some i.
Proof.
  destruct x as [y|]; simpl.
  - rewrite String.eqb_eq. split; congruence.
  - split; discriminate.
Qed.

Lemma is_id_false x i : is_id x i = false <-> x <> Some i.
Proof.
  rewrite <- is_id_true. destruct (is_id x i); split; congruence.
Qed.

(** Filtering keeps the order of what it keeps. *)
Lemma filter_sublist {A} (f : A -> bool) (l : list A) :
  List.filter f l `sublist_of` l.
Proof.
  induction l as [|x l IH]; simpl.
  - constructor.
  - destruct (f x); now constructor.
Qed.

(** Filtering out the one entry that fails the test removes that entry. *)
Lemma filter_remove_one {A} (f : A -> bool) (pre post : list A) (x : A) :
  f x = false ->
  (forall y, In y (pre ++ post) -> f y = true) ->
  List.filter f (pre ++ x :: post) = pre ++ post.
Proof.
  intros Hx Hall. induction pre as [|p pre IH]; simpl.
  - rewrite Hx. induction post as [|q post IHp]; simpl; [reflexivity|].
    rewrite (Hall q) by (left; reflexivity).
    f_equal. apply IHp. intros y Hy. apply Hall. now right.
  - rewrite (Hall p) by (left; reflexivity).
    f_equal. apply IH. intros y Hy. apply Hall. now right.
Qed.

(** The reply to a delete request, whenever it arrives: the list written is
    the filtered list of the render the handler was created in, and a
    selection is cleared when that render's selection was the deleted id. *)
Lemma resume_delete_ok del closure data w :
  exists w',
    resume (DeleteTutorial del closure) (ROk data) w = Some w' /\
    tutorials (state w') = List.filter (keeps del) (tutorials closure) /\
    expandedId (state w') =
      (if is_id (expandedId closure) del then None
       else expandedId (state w)) /\
    playingId (state w') =
      (if is_id (playingId closure) del then None
       else playingId (state w)) /\
    loading (state w') = loading (state w) /\
    error (state w') = error (state w) /\
    inflight w' = inflight w /\
    alerts w' = alerts w.
Proof.
  eexists. split; [reflexivity|]. unfold handleDelete_then.
  destruct (is_id (expandedId closure) del),
           (is_id (playingId closure) del); simpl; tauto.
Qed.

Lemma resume_delete_err del closure e w :
  resume (DeleteTutorial del closure) (RErr e) w
  = Some (alert (Js.orElse e "Failed to delete tutorial") w).
Proof. reflexivity. Qed.

Lemma deleted_unfold del reply w :
  deleted del reply w
  = resume (DeleteTutorial del (state w)) reply w.
Proof.
  unfold deleted, handleDelete, step, send, answered; simpl.
  now destruct w.
Qed.

(** One delete, answered while the collection is still the one its handler
    was created with (at once, or after events that left the collection
    alone). A confirmed delete that the server accepts removes from the local
    collection the entries with that id and nothing else: the new collection
    is the old one without them, in the old order; when the id occurs once,
    the collection loses exactly that entry. A delete the server refuses
    leaves every cell of the component as it was and shows an alert, whenever
    the reply arrives; a delete the user does not confirm does nothing. *)
Theorem handleDelete_removes_exactly_the_entry (w : World) (deleted_id : string) :
  (forall data, exists w',
      deleted deleted_id (ROk data) w = Some w' /\
      tutorials (state w')
      = List.filter (keeps deleted_id) (tutorials (state w)) /\
      tutorials (state w') `sublist_of` tutorials (state w) /\
      (forall t, In t (tutorials (state w')) <->
                 In t (tutorials (state w)) /\ id t <> deleted_id) /\
      (forall pre t post,
          tutorials (state w) = pre ++ t :: post ->
          id t = deleted_id ->
          (forall u, In u (pre ++ post) -> id u <> deleted_id) ->
          tutorials (state w') = pre ++ post) /\
      alerts w' = alerts w) /\
  (forall e, exists w',
      deleted deleted_id (RErr e) w = Some w' /\
      state w' = state w /\
      alerts w' = Js.orElse e "Failed to delete tutorial" :: alerts w) /\
  handleDelete deleted_id false w = w /\
  (forall (v : World) i closure data,
      inflight v !! i = Some (DeleteTutorial deleted_id closure) ->
      tutorials closure = tutorials (state v) ->
      exists v',
        step v (EvReply i (ROk data)) = Some v' /\
        tutorials (state v')
        = List.filter (keeps deleted_id) (tutorials (state v))) /\
  (forall (v : World) i closure e,
      inflight v !! i = Some (DeleteTutorial deleted_id closure) ->
      exists v',
        step v (EvReply i (RErr e)) = Some v' /\ state v' = state v).
Proof.
  split; [|split; [|split; [|split]]]; [| |reflexivity| |].
  - intros data. rewrite deleted_unfold.
    destruct (resume_delete_ok deleted_id (state w) data w)
      as (w' & Hw' & Ht & _ & _ & _ & _ & _ & Ha).
    exists w'. split; [exact Hw'|]. rewrite Ht.
    split; [reflexivity|]. split; [apply filter_sublist|].
    split; [|split; [|exact Ha]].
    + intros t. rewrite filter_In, keeps_true. reflexivity.
    + intros pre t post Hl Hid Hothers. rewrite Hl.
      apply filter_remove_one.
      * unfold keeps. rewrite Hid, String.eqb_refl. reflexivity.
      * intros u Hu. apply keeps_true. now apply Hothers.
  - intros e. rewrite deleted_unfold, resume_delete_err.
    eexists. split; [reflexivity|]. split; reflexivity.
  - intros v i closure data Hi Hsame. unfold step. rewrite Hi.
    destruct (resume_delete_ok deleted_id closure data (answered i v))
      as (v' & Hv' & Ht & _).
    exists v'. split; [exact Hv'|]. now rewrite Ht, Hsame.
  - intros v i closure e Hi. unfold step. rewrite Hi, resume_delete_err.
    eexists. split; reflexivity.
Qed.

(** One delete, answered while the selections are still the ones its handler
    was created with. After a confirmed delete that the server accepts, the
    expanded entry is cleared when it was the deleted one and the playing
    entry is cleared when it was the deleted one; a selection of another id
    is kept. Neither selection, nor any entry of the collection, refers to
    the deleted id afterwards. *)
Theorem handleDelete_clears_selection_of_deleted (w : World)
    (deleted_id : string) (data : Data) :
  exists w',
    deleted deleted_id (ROk data) w = Some w' /\
    expandedId (state w') =
      (if decide (expandedId (state w) = Some deleted_id) then None
       else expandedId (state w)) /\
    playingId (state w') =
      (if decide (playingId (state w) = Some deleted_id) then None
       else playingId (state w)) /\
    expandedId (state w') <> Some deleted_id /\
    playingId (state w') <> Some deleted_id /\
    (forall t, In t (tutorials (state w')) -> id t <> deleted_id) /\
    (forall (v : World) i closure,
        inflight v !! i = Some (DeleteTutorial deleted_id closure) ->
        expandedId closure = expandedId (state v) ->
        playingId closure = playingId (state v) ->
        exists v',
          step v (EvReply i (ROk data)) = Some v' /\
          expandedId (state v') <> Some deleted_id /\
          playingId (state v') <> Some deleted_id /\
          (forall t, In t (tutorials (state v')) -> id t <> deleted_id)).
Proof.
  assert (forall x : option string,
             (if is_id x deleted_id then None else x)
             = (if decide (x = Some deleted_id) then None else x)) as Hsame.
  { intros x. destruct (is_id x deleted_id) eqn:Hx.
    - apply is_id_true in Hx. now rewrite decide_True.
    - apply is_id_false in Hx. now rewrite decide_False. }
  assert (forall x : option string,
             (if decide (x = Some deleted_id) then None else x)
             <> Some deleted_id) as Hgone
    by (intros x; destruct (decide (x = Some deleted_id)); congruence).
  assert (forall l t, In t (List.filter (keeps deleted_id) l) ->
                      id t <> deleted_id) as Hfiltered.
  { intros l t Hin. apply filter_In in Hin as [_ Hk]. now apply keeps_true. }
  rewrite deleted_unfold.
  destruct (resume_delete_ok deleted_id (state w) data w)
    as (w' & Hw' & Ht & He & Hp & _).
  exists w'. split; [exact Hw'|]. rewrite He, Hp, Ht, !Hsame.
  split; [reflexivity|]. split; [reflexivity|].
  split; [apply Hgone|]. split; [apply Hgone|]. split; [apply Hfiltered|].
  intros v i closure Hi Hexp Hplay. unfold step. rewrite Hi.
  destruct (resume_delete_ok deleted_id closure data (answered i v))
    as (v' & Hv' & Ht' & He' & Hp' & _).
  exists v'. split; [exact Hv'|].
  rewrite He', Hp', Ht', Hexp, Hplay. simpl. rewrite !Hsame.
  split; [apply Hgone|]. split; [apply Hgone|]. apply Hfiltered.
Qed.

End LibraryProperties.

(** ** The job-lifecycle engine *)
Section AppProperties.

Context {TaskPlan Results : Type}.

Import App.

Abbreviation World := (@App.World TaskPlan Results).
Abbreviation State := (@App.State TaskPlan Results).
Abbreviation JobStatus := (Types.JobStatus TaskPlan Results).

Lemma render_state (w : World) : state (render w) = state w.
Proof.
  unfold render, runEffect, runCleanup, clearPolling.
  destruct (decide _); [reflexivity|].
  destruct (effectCleanup w); [destruct (pollingRef w)|]; simpl;
    destruct (pollTarget (state w)); reflexivity.
Qed.

Lemma render_inflight (w : World) : inflight (render w) = inflight w.
Proof.
  unfold render, runEffect, runCleanup, clearPolling.
  destruct (decide _); [reflexivity|].
  destruct (effectCleanup w); [destruct (pollingRef w)|]; simpl;
    destruct (pollTarget (state w)); reflexivity.
Qed.

(** The guard of the effect reads nothing but its dependencies. *)
Lemma pollTarget_deps (s s' : State) :
  deps s = deps s' -> pollTarget s = pollTarget s'.
Proof.
  unfold deps, pollTarget. intros H. injection H as Hj Hs. rewrite Hj.
  destruct (jobId s'); [|reflexivity].
  destruct (jobStatus s), (jobStatus s'); simpl in Hs; try discriminate;
    [|reflexivity].
  injection Hs as ->. reflexivity.
Qed.

Lemma pollTarget_jobId (s : State) j : pollTarget s = Some j -> jobId s = Some j.
Proof.
  unfold pollTarget. destruct (jobId s); [|discriminate].
  destruct (jobStatus s); [|discriminate].
  destruct (_ && _); [congruence | discriminate].
Qed.

Lemma mounted_inv : polling_inv (mounted (TaskPlan:=TaskPlan) (Results:=Results)).
Proof. repeat split; discriminate. Qed.

Lemma clearPolling_state (w : World) : state (clearPolling w) = state w.
Proof. unfold clearPolling. now destruct (pollingRef w). Qed.

(** After a callback, the cleanup of the effect leaves no interval live. *)
Lemma runCleanup_clears (w w1 : World) :
  polling_inv w -> handled w w1 ->
  timers (runCleanup w1) = ∅ /\ state (runCleanup w1) = state w1 /\
  log (runCleanup w1) = log w1.
Proof.
  intros (Hdeps & Htimers & Hlast) (Href & Hed & Hcl & Ht1 & Hlast1).
  unfold runCleanup, clearPolling. rewrite Hcl, Href.
  destruct (pollTarget (state w)) as [j|].
  - destruct Htimers as [-> (t & Hpr & Hts)]. rewrite Hpr. simpl.
    repeat split.
    destruct Ht1 as [->|[-> _]]; unfold clearPolling; rewrite ?Hpr; simpl;
      rewrite Hts, ?delete_singleton_eq; try apply delete_empty; reflexivity.
  - destruct Htimers as [-> Hts]. repeat split.
    destruct Ht1 as [->|[-> _]]; [exact Hts|].
    unfold clearPolling. destruct (pollingRef w); simpl; rewrite Hts;
      [apply delete_empty | reflexivity].
Qed.


Lemma render_inv (w w1 : World) :
  polling_inv w -> handled w w1 -> polling_inv (render w1).
Proof.
  intros Hinv Hh.
  destruct (runCleanup_clears w w1 Hinv Hh) as (Hc1 & Hc2 & Hc3).
  destruct Hinv as (Hdeps & Htimers & Hlast).
  destruct Hh as (Href & Hed & Hcl & Ht1 & Hlast1).
  unfold render. destruct (decide (deps (state w1) = effectDeps w1)) as [Heq|Hne].
  - split; [congruence|]. split; [|exact Hlast1].
    rewrite Hed, Hdeps in Heq. apply pollTarget_deps in Heq.
    rewrite Heq. destruct (pollTarget (state w)) as [j|].
    + destruct Htimers as [Hc (t & Hpr & Hts)].
      destruct Ht1 as [Hsame|[_ Hnone]]; [|congruence].
      split; [congruence|]. exists t. split; congruence.
    + destruct Htimers as [Hc Hts]. split; [congruence|].
      destruct Ht1 as [->|[-> _]]; [exact Hts|].
      unfold clearPolling. destruct (pollingRef w); simpl; rewrite Hts;
        [apply delete_empty | reflexivity].
  - unfold runEffect. rewrite Hc2.
    destruct (pollTarget (state w1)) as [j|] eqn:Hpt;
      unfold polling_inv, setEffect, armPolling; simpl;
      rewrite ?Hc2, ?Hc3, ?Hpt.
    + split; [reflexivity|]. split; [|exact Hlast1].
      split; [reflexivity|]. exists (nextTimer (runCleanup w1)).
      split; [reflexivity|]. rewrite Hc1. apply insert_empty.
    + split; [reflexivity|]. split; [|exact Hlast1].
      split; [reflexivity | exact Hc1].
Qed.


Lemma pollTarget_settled (s : State) (data : JobStatus) :
  Js.includes settled (Types.status data) = true ->
  pollTarget (setJobStatus (Some data) s) = None.
Proof.
  intros H. unfold pollTarget, setJobStatus. cbn [jobId jobStatus].
  destruct (jobId s); [|reflexivity].
  rewrite H. now rewrite andb_false_r.
Qed.

Ltac same_timers :=
  unfold handled; simpl;
  repeat match goal with |- _ /\ _ => split end;
  try reflexivity; try (left; reflexivity); auto; try discriminate.

Lemma handle_handled (w w1 : World) e :
  polling_inv w -> handle w e = Some w1 -> handled w w1.
Proof.
  intros (_ & _ & Hlast) H. destruct e as [ins|plan| | | |t|i reply now];
    simpl in H.
  - injection H as <-. same_timers.
  - injection H as <-. unfold handleSaveTaskPlan.
    destruct (activeId (state w)); same_timers.
  - injection H as <-. unfold handleExecute.
    destruct (activeId (state w)); same_timers.
  - injection H as <-. unfold handleRegenerate.
    destruct (activeId (state w)); same_timers.
  - injection H as <-. unfold resetAll, clearPolling; simpl.
    destruct (pollingRef w) as [t|] eqn:Hpr; same_timers.
    right. unfold clearPolling. rewrite Hpr. split; reflexivity.
  - destruct (timers w !! t) as [j|]; [|discriminate].
    injection H as <-. same_timers.
  - destruct (inflight w !! i) as [r|]; [|discriminate].
    destruct r as [ins|j|j plan|j|j], reply as [[job_id|data|]|err];
      cbn [resume] in H; try discriminate;
      try (injection H as <-; same_timers; fail).
    injection H as <-. unfold tick_then.
    destruct (Js.includes settled (Types.status data)) eqn:Hs; [|same_timers].
    unfold clearPolling; simpl.
    destruct (pollingRef w) as [t|] eqn:Hpr; same_timers.
    right. unfold clearPolling. rewrite Hpr. split; [reflexivity|].
    now apply (pollTarget_settled (setIsLoading false (state w)) data).
Qed.

Lemma step_inv (w w1 : World) e :
  polling_inv w -> step w e = Some w1 -> polling_inv w1.
Proof.
  unfold step. intros Hinv H.
  destruct (handle w e) as [w0|] eqn:Hh; [|discriminate].
  injection H as <-. eapply render_inv; [exact Hinv|].
  eapply handle_handled; eassumption.
Qed.

Lemma run_inv es : forall (w w1 : World),
  polling_inv w -> run w es = Some w1 -> polling_inv w1.
Proof.
  induction es as [|e es IH]; simpl; intros w w1 Hinv H.
  - now injection H as <-.
  - destruct (step w e) as [w0|] eqn:Hs; [|discriminate].
    eapply IH; [|exact H]. eapply step_inv; eassumption.
Qed.

Lemma reachable_inv (w : World) : reachable w -> polling_inv w.
Proof. intros [es H]. eapply run_inv; [apply mounted_inv | exact H]. Qed.

Lemma reachable_step (w w1 : World) e :
  reachable w -> step w e = Some w1 -> reachable w1.
Proof.
  intros [es H] Hs. exists (es ++ [e]).
  revert H. generalize (mounted (TaskPlan:=TaskPlan) (Results:=Results)).
  induction es as [|e0 es IH]; simpl; intros w0 H.
  - injection H as ->. now rewrite Hs.
  - destruct (step w0 e0); [now apply IH | discriminate].
Qed.

(** When the effect has run for the cells as they are, a render changes
    nothing. *)
Lemma render_noop (w : World) : effectDeps w = deps (state w) -> render w = w.
Proof. intros H. unfold render. now rewrite decide_True. Qed.

Lemma inv_size (w : World) : polling_inv w -> size (timers w) <= 1.
Proof.
  intros (_ & Ht & _). destruct (pollTarget (state w)).
  - destruct Ht as [_ (t & _ & ->)]. now rewrite map_size_singleton.
  - destruct Ht as [_ ->]. rewrite map_size_empty. lia.
Qed.

(** The live interval, if there is one, is the one [pollingRef] names; it
    was made by the effect for the current job, which is the last one
    created. *)
Lemma inv_live (w : World) t iv :
  polling_inv w -> timers w !! t = Some iv ->
  exists j,
    iv = poller j /\
    timers w = {[ t := iv ]} /\ pollingRef w = Some t /\
    jobId (state w) = Some j /\ lastCreated (log w) = Some j /\
    pollTarget (state w) = Some j.
Proof.
  intros (_ & Ht & Hlast) Hlook.
  destruct (pollTarget (state w)) as [j|] eqn:Hpt.
  - destruct Ht as [_ (t' & Hpr & Hts)]. rewrite Hts in Hlook.
    apply lookup_singleton_Some in Hlook as [-> <-].
    pose proof (pollTarget_jobId _ _ Hpt) as Hj.
    exists j. repeat split; auto.
  - destruct Ht as [_ Hts]. rewrite Hts, lookup_empty in Hlook. discriminate.
Qed.

(** No interval is live while there is no job id. *)
Lemma inv_no_job (w : World) :
  polling_inv w -> jobId (state w) = None -> timers w = ∅.
Proof.
  intros (_ & Ht & _) Hj. unfold pollTarget in Ht. rewrite Hj in Ht. tauto.
Qed.

(** A reply to an outstanding request: the rest of the handler, then a
    render. *)
Lemma step_reply (w w1 : World) i r reply now :
  inflight w !! i = Some r ->
  resume r reply now (answered i w) = Some w1 ->
  step w (EvReply i reply now) = Some (render w1).
Proof. intros Hi Hr. unfold step; simpl. now rewrite Hi, Hr. Qed.

(** A reset, between steps: no interval is live afterwards, there is no job,
    and the outstanding requests stay outstanding. *)
Lemma reset_clears (w : World) :
  polling_inv w ->
  step w EvReset = Some (render (resetAll w)) /\
  timers (render (resetAll w)) = ∅ /\
  jobId (state (render (resetAll w))) = None /\
  jobStatus (state (render (resetAll w))) = None /\
  inflight (render (resetAll w)) = inflight w.
Proof.
  intros Hinv. split; [reflexivity|].
  assert (state (render (resetAll w))
          = setShowLibrary true (setIsLoading false (setError None
              (setJobStatus None (setJobId None (state w)))))) as Hs.
  { rewrite render_state. unfold resetAll. now rewrite clearPolling_state. }
  split; [|rewrite Hs; repeat split].
  - apply inv_no_job; [|now rewrite Hs].
    now apply (step_inv w _ EvReset Hinv).
  - rewrite render_inflight. unfold resetAll, clearPolling; simpl.
    now destruct (pollingRef w).
Qed.


(** A failed status reply, between steps: the request is struck off, the
    failure is logged, and nothing is rendered anew. *)
Lemma failed_status_reply (w : World) i j e now :
  polling_inv w ->
  inflight w !! i = Some (GetStatus j) ->
  step w (EvReply i (RErr e) now)
  = Some (note (ConsoleError "Polling error:") (answered i w)).
Proof.
  intros (Hd & _) Hi.
  rewrite (step_reply w (note (ConsoleError "Polling error:") (answered i w))
             i (GetStatus j)) by (exact Hi || reflexivity).
  now rewrite render_noop.
Qed.



(** What a handler with the [if (!jobId) return] guard does when called:
    nothing without a job id, and with one it sends its request for that id
    and leaves the job alone. *)
Lemma guarded_calls (w : World) (plan : TaskPlan) :
  (activeId (state w) = None ->
   handleSaveTaskPlan plan w = w /\ handleExecute w = w /\
   handleRegenerate w = w) /\
  (forall j, activeId (state w) = Some j ->
     inflight (handleSaveTaskPlan plan w) = PutTaskPlan j plan :: inflight w /\
     state (handleSaveTaskPlan plan w) = state w /\
     inflight (handleExecute w) = PostExecute j :: inflight w /\
     jobStatus (state (handleExecute w)) = jobStatus (state w) /\
     inflight (handleRegenerate w) = PostRegenerate j :: inflight w /\
     jobStatus (state (handleRegenerate w)) = jobStatus (state w)).
Proof.
  unfold handleSaveTaskPlan, handleExecute, handleRegenerate.
  split.
  - intros ->. auto.
  - intros j ->. simpl. auto 7.
Qed.

(** C5. When the execute request succeeds, the local job gets status
    [recording] and the message [Starting recording], and every other field
    stays as it was. When the regenerate request succeeds, the local job gets
    status [recording], the message [Regenerating video] and no video url or
    file name, and every other field stays as it was. The job id is not
    touched by either. *)
Theorem execute_and_regenerate_set_recording (w : World) (js : JobStatus)
    (i : nat) (j : string) (data : Data) (now : string) :
  jobStatus (state w) = Some js ->
  (inflight w !! i = Some (PostExecute j) ->
   exists w' js',
     step w (EvReply i (ROk data) now) = Some w' /\
     jobStatus (state w') = Some js' /\
     jobId (state w') = jobId (state w) /\
     Types.status js' = "recording" /\
     Types.message js' = "Starting recording" /\
     Types.id js' = Types.id js /\
     Types.instruction js' = Types.instruction js /\
     Types.task_plan js' = Types.task_plan js /\
     Types.video_url js' = Types.video_url js /\
     Types.video_filename js' = Types.video_filename js /\
     Types.results js' = Types.results js /\
     Types.error js' = Types.error js /\
     Types.created_at js' = Types.created_at js) /\
  (inflight w !! i = Some (PostRegenerate j) ->
   exists w' js',
     step w (EvReply i (ROk data) now) = Some w' /\
     jobStatus (state w') = Some js' /\
     jobId (state w') = jobId (state w) /\
     Types.status js' = "recording" /\
     Types.message js' = "Regenerating video" /\
     Types.video_url js' = None /\
     Types.video_filename js' = None /\
     Types.id js' = Types.id js /\
     Types.instruction js' = Types.instruction js /\
     Types.task_plan js' = Types.task_plan js /\
     Types.results js' = Types.results js /\
     Types.error js' = Types.error js /\
     Types.created_at js' = Types.created_at js).
Proof.
  intros Hjs. split; intros Hi.
  - exists (render (upd (setJobStatusWith (fmap withRecording)) (answered i w))),
           (withRecording js).
    split; [eapply step_reply; [exact Hi | reflexivity]|].
    rewrite render_state. unfold setJobStatusWith; simpl. rewrite Hjs.
    repeat (split; [reflexivity|]). reflexivity.
  - exists (render (upd (setJobStatusWith (fmap withRegenerating)) (answered i w))),
           (withRegenerating js).
    split; [eapply step_reply; [exact Hi | reflexivity]|].
    rewrite render_state. unfold setJobStatusWith; simpl. rewrite Hjs.
    repeat (split; [reflexivity|]). reflexivity.
Qed.

(** C6. With a job present, when the save request succeeds the local job's
    plan becomes the submitted plan and no other field of the job changes,
    the status among them; the job id, the error and the loading flag stay
    too. When the save request fails, the job is exactly as it was and the
    error is shown. *)
Theorem handleSaveTaskPlan_replaces_only_the_plan (w : World) (js : JobStatus)
    (i : nat) (j : string) (plan : TaskPlan) (now : string) :
  jobStatus (state w) = Some js ->
  inflight w !! i = Some (PutTaskPlan j plan) ->
  (forall data, exists w' js',
     step w (EvReply i (ROk data) now) = Some w' /\
     jobStatus (state w') = Some js' /\
     Types.task_plan js' = Some plan /\
     Types.status js' = Types.status js /\
     Types.id js' = Types.id js /\
     Types.message js' = Types.message js /\
     Types.instruction js' = Types.instruction js /\
     Types.video_url js' = Types.video_url js /\
     Types.video_filename js' = Types.video_filename js /\
     Types.results js' = Types.results js /\
     Types.error js' = Types.error js /\
     Types.created_at js' = Types.created_at js /\
     jobId (state w') = jobId (state w) /\
     error (state w') = error (state w) /\
     isLoading (state w') = isLoading (state w)) /\
  (forall e, exists w',
     step w (EvReply i (RErr e) now) = Some w' /\
     jobStatus (state w') = Some js /\
     jobId (state w') = jobId (state w) /\
     isLoading (state w') = isLoading (state w) /\
     error (state w') = Some (Js.orElse e "Error saving plan")).
Proof.
  intros Hjs Hi. split.
  - intros data.
    exists (render (upd (setJobStatusWith (fmap (withTaskPlan plan))) (answered i w))),
           (withTaskPlan plan js).
    split; [eapply step_reply; [exact Hi | reflexivity]|].
    rewrite render_state. unfold setJobStatusWith; simpl. rewrite Hjs.
    repeat (split; [reflexivity|]). reflexivity.
  - intros e. eexists.
    split; [eapply step_reply; [exact Hi | reflexivity]|].
    rewrite render_state. simpl.
    repeat (split; [reflexivity || exact Hjs|]). reflexivity.
Qed.

(** C7. When the status request of a tick fails, the failure goes to the
    console and nowhere else: the cells (job id, job, error, loading flag)
    are as before, the live interval and [pollingRef] are as before, and the
    interval's next tick sends the status request again. *)
Theorem poll_failure_is_only_logged (w : World) (i : nat) (j : string)
    (e : option string) (now : string) :
  reachable w ->
  inflight w !! i = Some (GetStatus j) ->
  exists w',
    step w (EvReply i (RErr e) now) = Some w' /\
    state w' = state w /\
    timers w' = timers w /\
    pollingRef w' = pollingRef w /\
    log w' = ConsoleError "Polling error:" :: log w /\
    inflight w' = delete i (inflight w) /\
    (forall t iv, timers w !! t = Some iv ->
       exists w'',
         step w' (EvTick t) = Some w'' /\
         inflight w'' = GetStatus (target iv) :: inflight w' /\
         state w'' = state w).
Proof.
  intros Hreach Hi. pose proof (reachable_inv w Hreach) as Hinv.
  eexists. split; [now apply (failed_status_reply w i j e now Hinv)|].
  simpl. repeat (split; [reflexivity|]).
  intros t iv Ht. eexists. unfold step; simpl. rewrite Ht. simpl.
  split; [reflexivity|].
  destruct Hinv as (Hd & _). rewrite render_noop by exact Hd.
  split; reflexivity.
Qed.

(** The guard of the effect, spelled out. *)
Lemma pollTarget_Some (s : State) j :
  pollTarget s = Some j <->
  jobId s = Some j /\ Js.truthy j = true /\
  exists js, jobStatus s = Some js /\
             Js.includes settled (Types.status js) = false.
Proof.
  split.
  - unfold pollTarget. intros H.
    destruct (jobId s) as [j0|]; [|discriminate].
    destruct (jobStatus s) as [js|]; [|discriminate].
    destruct (Js.truthy j0) eqn:Hj0; [|discriminate].
    destruct (Js.includes settled (Types.status js)) eqn:Hst; [discriminate|].
    injection H as <-. eauto 6.
  - intros (Hj & Ht & js & Hjs & Hs). unfold pollTarget.
    now rewrite Hj, Hjs, Ht, Hs.
Qed.

(** Between steps, an interval is live exactly when the guard holds. *)
Lemma inv_polling (w : World) :
  polling_inv w -> (polling w <-> pollTarget (state w) <> None).
Proof.
  intros (_ & Ht & _). unfold polling.
  destruct (pollTarget (state w)) as [j|].
  - destruct Ht as [_ (t & _ & ->)]. split; [discriminate|]. intros _ He.
    apply (f_equal (fun m : gmap positive Interval => m !! t)) in He.
    rewrite lookup_singleton_eq, lookup_empty in He. discriminate.
  - destruct Ht as [_ ->]. tauto.
Qed.

(** The callbacks that cannot make the guard of the effect hold. *)
Lemma handle_keeps_guard_off (w w1 : World) e :
  pollTarget (state w) = None ->
  handle w e = Some w1 ->
  pollTarget (state w1) <> None ->
  exists i r data now,
    e = EvReply i (ROk data) now /\ inflight w !! i = Some r /\
    rearms r = true.
Proof.
  intros Hoff Hh Hon.
  assert (forall s : State,
             pollTarget s = pollTarget (state w) -> state w1 = s -> False)
    as Hsame by (intros s Hs Hw1; apply Hon; rewrite Hw1, Hs; exact Hoff).
  destruct e as [ins|plan| | | |t|i reply now]; simpl in Hh.
  - injection Hh as <-. exfalso. now apply Hon.
  - injection Hh as <-. exfalso. apply (Hsame (state w)); [reflexivity|].
    unfold handleSaveTaskPlan. now destruct (activeId (state w)).
  - injection Hh as <-. exfalso.
    apply (Hsame (state (handleExecute w))); [|reflexivity].
    unfold handleExecute. now destruct (activeId (state w)).
  - injection Hh as <-. exfalso.
    apply (Hsame (state (handleRegenerate w))); [|reflexivity].
    unfold handleRegenerate. now destruct (activeId (state w)).
  - injection Hh as <-. exfalso. apply Hon.
    unfold resetAll. now rewrite clearPolling_state.
  - destruct (timers w !! t); [|discriminate]. injection Hh as <-.
    exfalso. now apply (Hsame (state w)).
  - destruct (inflight w !! i) as [r|] eqn:Hi; [|discriminate].
    destruct reply as [data|err].
    + destruct r as [ins|j|j plan|j|j];
        try (exists i; eexists; exists data, now;
             split; [reflexivity | split; [exact Hi | reflexivity]]).
      cbn [resume] in Hh. injection Hh as <-. exfalso.
      eapply Hsame; [|reflexivity].
      unfold pollTarget, setJobStatusWith; simpl.
      destruct (jobId (state w)); [|reflexivity].
      now destruct (jobStatus (state w)).
    + exfalso. destruct r as [ins|j|j plan|j|j]; simpl in Hh;
        injection Hh as <-; now eapply Hsame.
Qed.

Lemma inv_guard_off (w : World) :
  polling_inv w -> pollTarget (state w) = None -> timers w = ∅.
Proof. intros (_ & Ht & _) Hpt. rewrite Hpt in Ht. tauto. Qed.

(** What a successful status reply does, whenever it arrives. *)
Lemma status_reply_applied (w : World) i j (data : JobStatus) now :
  reachable w ->
  inflight w !! i = Some (GetStatus j) ->
  exists w',
    step w (EvReply i (ROk (DStatus data)) now) = Some w' /\
    reachable w' /\
    jobStatus (state w') = Some data /\
    jobId (state w') = jobId (state w) /\
    error (state w') = error (state w) /\
    inflight w' = delete i (inflight w).
Proof.
  intros Hreach Hi.
  assert (exists w1,
             resume (GetStatus j) (ROk (DStatus data)) now (answered i w)
             = Some w1 /\
             jobStatus (state w1) = Some data /\
             jobId (state w1) = jobId (state w) /\
             error (state w1) = error (state w) /\
             inflight w1 = delete i (inflight w)) as (w1 & Hr & Hfacts).
  { exists (tick_then data (answered i w)). split; [reflexivity|].
    unfold tick_then.
    destruct (Js.includes settled (Types.status data));
      rewrite ?clearPolling_state; simpl; auto.
    unfold clearPolling; simpl. destruct (pollingRef w); simpl; auto. }
  exists (render w1).
  pose proof (step_reply w w1 i _ _ now Hi Hr) as Hstep.
  split; [exact Hstep|]. split; [eapply reachable_step; eassumption|].
  now rewrite render_state, render_inflight.
Qed.

(** C2, as the code has it. A reset leaves no interval live and no job, but
    it does not withdraw a status request that is still outstanding, and the
    reply to such a request, whenever it arrives, is applied without a look
    at the job it was sent for: after a successful reply the job is the data
    of the reply, whatever the job id is by then (unset after a reset, or the
    id of a newer job); while the job id is unset no interval is armed, and
    never more than one; a failed reply changes no cell and no interval. *)
Theorem late_status_reply_overwrites_job (w : World) (i : nat) (j : string)
    (now : string) :
  reachable w ->
  inflight w !! i = Some (GetStatus j) ->
  (forall data : JobStatus, exists w',
      step w (EvReply i (ROk (DStatus data)) now) = Some w' /\
      jobStatus (state w') = Some data /\
      jobId (state w') = jobId (state w) /\
      error (state w') = error (state w) /\
      (jobId (state w) = None -> timers w' = ∅) /\
      size (timers w') <= 1) /\
  (forall e, exists w',
      step w (EvReply i (RErr e) now) = Some w' /\
      state w' = state w /\ timers w' = timers w) /\
  (exists w0,
      step w EvReset = Some w0 /\
      jobId (state w0) = None /\ jobStatus (state w0) = None /\
      timers w0 = ∅ /\ inflight w0 = inflight w /\
      (forall data : JobStatus, exists w',
          step w0 (EvReply i (ROk (DStatus data)) now) = Some w' /\
          jobStatus (state w') = Some data /\
          jobId (state w') = None /\
          timers w' = ∅)).
Proof.
  intros Hreach Hi.
  assert (forall (v : World) (data : JobStatus),
             reachable v -> inflight v !! i = Some (GetStatus j) ->
             exists w',
               step v (EvReply i (ROk (DStatus data)) now) = Some w' /\
               jobStatus (state w') = Some data /\
               jobId (state w') = jobId (state v) /\
               error (state w') = error (state v) /\
               (jobId (state v) = None -> timers w' = ∅) /\
               size (timers w') <= 1) as Hok.
  { intros v data Hv Hvi.
    destruct (status_reply_applied v i j data now Hv Hvi)
      as (w' & Hstep & Hr' & Hjs & Hj & He & _).
    exists w'. pose proof (reachable_inv w' Hr') as Hinv'.
    repeat (split; [assumption|]). split.
    - intros Hnone. apply inv_no_job; congruence.
    - now apply inv_size. }
  split; [intros data; now apply Hok|]. split.
  - intros e. eexists.
    split; [now apply (failed_status_reply w i j e now (reachable_inv w Hreach))|].
    split; reflexivity.
  - destruct (reset_clears w (reachable_inv w Hreach))
      as (Hstep0 & Ht0 & Hj0 & Hjs0 & Hi0).
    exists (render (resetAll w)).
    repeat (split; [assumption|]).
    intros data.
    destruct (Hok (render (resetAll w)) data)
      as (w' & Hstep & Hjs & Hj & _ & Hnone & _).
    + eapply reachable_step; eassumption.
    + now rewrite Hi0.
    + exists w'. rewrite Hj0 in Hj. auto.
Qed.

(** C3, as the code has it. Between steps an interval is live exactly when
    there is a truthy job id and a job whose status is outside [settled].
    A status reply with a status in [settled] stops the polling: no interval
    is live and no tick can fire. A successful execute or regenerate, with a
    job present, arms the polling again, for the current job id. While
    nothing is polling, the only events that start it are successful
    replies: to an execute or a regenerate request, to a status request that
    was still outstanding, or to a plan request (a new job). *)
Theorem polling_iff_job_not_settled (w : World) :
  reachable w ->
  (polling w <->
   exists j js,
     jobId (state w) = Some j /\ Js.truthy j = true /\
     jobStatus (state w) = Some js /\
     Js.includes settled (Types.status js) = false) /\
  (forall i j (data : JobStatus) now,
      inflight w !! i = Some (GetStatus j) ->
      Js.includes settled (Types.status data) = true ->
      exists w',
        step w (EvReply i (ROk (DStatus data)) now) = Some w' /\
        jobStatus (state w') = Some data /\
        ~ polling w' /\
        forall t, step w' (EvTick t) = None) /\
  (forall i r js data now,
      inflight w !! i = Some r ->
      (exists j, r = PostExecute j \/ r = PostRegenerate j) ->
      jobStatus (state w) = Some js ->
      activeId (state w) <> None ->
      exists w',
        step w (EvReply i (ROk data) now) = Some w' /\
        polling w' /\
        forall t iv, timers w' !! t = Some iv ->
                     jobId (state w) = Some (target iv)) /\
  (~ polling w ->
   forall e w',
     step w e = Some w' -> polling w' ->
     exists i r data now,
       e = EvReply i (ROk data) now /\ inflight w !! i = Some r /\
       rearms r = true).
Proof.
  intros Hreach. pose proof (reachable_inv w Hreach) as Hinv.
  split; [|split; [|split]].
  - rewrite (inv_polling w Hinv). split.
    + destruct (pollTarget (state w)) as [j|] eqn:Hpt; [|congruence].
      intros _. apply pollTarget_Some in Hpt as (Hj & Ht & js & Hjs & Hs).
      eauto 6.
    + intros (j & js & Hj & Ht & Hjs & Hs).
      assert (pollTarget (state w) = Some j) as ->
        by (apply pollTarget_Some; eauto).
      discriminate.
  - intros i j data now Hi Hset.
    destruct (status_reply_applied w i j data now Hreach Hi)
      as (w' & Hstep & Hr' & Hjs & _).
    pose proof (reachable_inv w' Hr') as Hinv'.
    assert (pollTarget (state w') = None) as Hoff.
    { destruct (pollTarget (state w')) as [j'|] eqn:Hpt; [|reflexivity].
      apply pollTarget_Some in Hpt as (_ & _ & js & Hjs' & Hs). congruence. }
    exists w'. split; [exact Hstep|]. split; [exact Hjs|]. split.
    + rewrite (inv_polling w' Hinv'). tauto.
    + intros t. unfold step; simpl.
      now rewrite (inv_guard_off w' Hinv' Hoff), lookup_empty.
  - intros i r js data now Hi (j & Hr) Hjs Hact.
    assert (exists f : JobStatus -> JobStatus,
               Js.includes settled (Types.status (f js)) = false /\
               resume r (ROk data) now (answered i w)
               = Some (upd (setJobStatusWith (fmap f)) (answered i w)))
      as (f & Hf & Hres).
    { destruct Hr as [-> | ->];
        [exists withRecording | exists withRegenerating]; split; reflexivity. }
    pose proof (step_reply w _ i r _ now Hi Hres) as Hstep.
    eexists. split; [exact Hstep|].
    assert (reachable (render (upd (setJobStatusWith (fmap f)) (answered i w))))
      as Hr' by (eapply reachable_step; eassumption).
    pose proof (reachable_inv _ Hr') as Hinv'.
    split.
    + apply (inv_polling _ Hinv'). rewrite render_state.
      unfold activeId in Hact.
      destruct (jobId (state w)) as [j0|] eqn:Hj0; [|congruence].
      destruct (Js.truthy j0) eqn:Ht0; [|congruence].
      assert (pollTarget
                (state (upd (setJobStatusWith (fmap f)) (answered i w)))
              = Some j0) as ->; [|discriminate].
      apply pollTarget_Some. unfold setJobStatusWith; simpl.
      rewrite Hjs; simpl. eauto 6.
    + intros t iv Hl.
      destruct (inv_live _ t iv Hinv' Hl) as (j' & -> & _ & _ & Hj' & _).
      now rewrite render_state in Hj'.
  - intros Hnp e w' Hstep Hp.
    assert (pollTarget (state w) = None) as Hoff.
    { destruct (pollTarget (state w)) eqn:Hpt; [|reflexivity].
      exfalso. apply Hnp, (inv_polling w Hinv). congruence. }
    pose proof (step_inv w w' e Hinv Hstep) as Hinv'.
    apply (inv_polling w' Hinv') in Hp.
    unfold step in Hstep.
    destruct (handle w e) as [w1|] eqn:Hh; [|discriminate].
    injection Hstep as <-. rewrite render_state in Hp.
    now apply (handle_keeps_guard_off w w1 e).
Qed.

End AppProperties.

(** ** The properties on the example runs *)
Section Runs.

Import App Scenario.


(** C2 as stated fails on the run [reset_in_flight]: the job was reset while
    a status request was outstanding, and the reply to that request puts the
    old job's status back, with no job id. On [replaced_in_flight] the reply
    for the old job [abc] overwrites the status of the newer job [xyz] and
    stops its polling. *)
Lemma reset_does_not_discard_status_reply :
  (run mounted reset_in_flight = Some (after reset_in_flight) /\
   jobId (state (after reset_in_flight)) = None /\
   jobStatus (state (after reset_in_flight)) = None /\
   inflight (after reset_in_flight) = [GetStatus "abc"] /\
   exists w',
     step (after reset_in_flight)
       (EvReply 0 (ROk (DStatus (report "generating_plan" None))) "t2")
     = Some w' /\
     jobId (state w') = None /\
     jobStatus (state w') = Some (report "generating_plan" None)) /\
  (run mounted replaced_in_flight = Some (after replaced_in_flight) /\
   jobId (state (after replaced_in_flight)) = Some "xyz" /\
   Types.id <$> jobStatus (state (after replaced_in_flight)) = Some "xyz" /\
   timers (after replaced_in_flight) = {[ 2%positive := poller "xyz" ]} /\
   inflight (after replaced_in_flight) = [GetStatus "abc"] /\
   exists v',
     step (after replaced_in_flight)
       (EvReply 0 (ROk (DStatus (report "plan_ready" None))) "t2")
     = Some v' /\
     jobId (state v') = Some "xyz" /\
     jobStatus (state v') = Some (report "plan_ready" None) /\
     Types.id <$> jobStatus (state v') = Some "abc" /\
     timers v' = ∅).
Proof.
  split.
  - do 4 (split; [vm_compute; reflexivity|]).
    eexists. split; [vm_compute; reflexivity|].
    split; vm_compute; reflexivity.
  - do 5 (split; [vm_compute; reflexivity|]).
    eexists. split; [vm_compute; reflexivity|].
    do 3 (split; [vm_compute; reflexivity|]).
    vm_compute; reflexivity.
Qed.

(** C2 as amended, on the run [polled]. *)
Lemma late_status_reply_overwrites_job_witness :
  run mounted polled = Some (after polled) /\
  inflight (after polled) !! 0 = Some (GetStatus "abc") /\
  (forall data, exists w',
      step (after polled) (EvReply 0 (ROk (DStatus data)) "t1") = Some w' /\
      jobStatus (state w') = Some data /\
      jobId (state w') = jobId (state (after polled)) /\
      error (state w') = error (state (after polled)) /\
      (jobId (state (after polled)) = None -> timers w' = ∅) /\
      size (timers w') <= 1).
Proof.
  split; [vm_compute; reflexivity|].
  split; [vm_compute; reflexivity|].
  refine (proj1 (late_status_reply_overwrites_job
                   (after polled) 0 "abc" "t1" _ _)).
  - exists polled. vm_compute. reflexivity.
  - vm_compute. reflexivity.
Defined.

(** C3 as stated fails on the run [settled_with_one_outstanding]: a status
    reply said [plan_ready] and the polling stopped; neither execute nor
    regenerate is called; the reply to the earlier status request arrives
    with [generating_plan], and the polling of the same job is armed again:
    the next tick sends a status request. *)
Lemma late_reply_rearms_polling_without_execute :
  run mounted settled_with_one_outstanding
  = Some (after settled_with_one_outstanding) /\
  jobId (state (after settled_with_one_outstanding)) = Some "abc" /\
  Types.status <$> jobStatus (state (after settled_with_one_outstanding))
  = Some "plan_ready" /\
  timers (after settled_with_one_outstanding) = ∅ /\
  exists w' w'',
    step (after settled_with_one_outstanding)
      (EvReply 0 (ROk (DStatus (report "generating_plan" None))) "t2")
    = Some w' /\
    jobId (state w') = Some "abc" /\
    timers w' = {[ 2%positive := poller "abc" ]} /\
    step w' (EvTick 2%positive) = Some w'' /\
    inflight w'' = [GetStatus "abc"].
Proof.
  do 4 (split; [vm_compute; reflexivity|]).
  do 2 eexists.
  split; [vm_compute; reflexivity|].
  do 2 (split; [vm_compute; reflexivity|]).
  split; vm_compute; reflexivity.
Qed.

(** C3 as amended, on the run [started]. *)
Lemma polling_iff_job_not_settled_witness :
  run mounted started = Some (after started) /\
  (polling (after started) <->
   exists j js,
     jobId (state (after started)) = Some j /\ Js.truthy j = true /\
     jobStatus (state (after started)) = Some js /\
     Js.includes settled (Types.status js) = false).
Proof.
  split; [vm_compute; reflexivity|].
  refine (proj1 (polling_iff_job_not_settled (after started) _)).
  exists started. vm_compute. reflexivity.
Defined.

(** C5 on the runs [executing] and [regenerating]. *)
Lemma execute_and_regenerate_set_recording_witness :
  (run mounted executing = Some (after executing) /\
   exists w' js',
     step (after executing) (EvReply 0 (ROk DOther) "t2") = Some w' /\
     jobStatus (state w') = Some js' /\
     Types.status js' = "recording" /\
     Types.message js' = "Starting recording" /\
     Types.task_plan js'
     = Some ["Open Notepad"; "Type Hello World"; "Save"]) /\
  (run mounted regenerating = Some (after regenerating) /\
   Types.video_url <$> jobStatus (state (after regenerating))
   = Some (Some "/media/abc.mp4") /\
   exists w' js',
     step (after regenerating) (EvReply 0 (ROk DOther) "t4") = Some w' /\
     jobStatus (state w') = Some js' /\
     Types.status js' = "recording" /\
     Types.message js' = "Regenerating video" /\
     Types.video_url js' = None /\
     Types.video_filename js' = None).
Proof.
  split.
  - split; [vm_compute; reflexivity|].
    destruct (proj1 (execute_and_regenerate_set_recording
                       (after executing) (report "plan_ready" None)
                       0 "abc" DOther "t2" eq_refl) eq_refl)
      as (w' & js' & Hstep & Hjs & _ & Hst & Hm & _ & _ & Hp & _).
    exists w', js'. repeat (split; [eassumption|]). exact Hp.
  - split; [vm_compute; reflexivity|].
    split; [vm_compute; reflexivity|].
    destruct (proj2 (execute_and_regenerate_set_recording
                       (after regenerating)
                       (report "completed" (Some "/media/abc.mp4"))
                       0 "abc" DOther "t4" eq_refl) eq_refl)
      as (w' & js' & Hstep & Hjs & _ & Hst & Hm & Hu & Hf & _).
    exists w', js'. repeat (split; [eassumption|]). exact Hf.
Defined.

(** C6 on the run [saving]. *)
Lemma handleSaveTaskPlan_replaces_only_the_plan_witness :
  run mounted saving = Some (after saving) /\
  (exists w' js',
     step (after saving) (EvReply 0 (ROk DOther) "t2") = Some w' /\
     jobStatus (state w') = Some js' /\
     Types.task_plan js'
     = Some ["Open Notepad"; "Type Hello"; "Save as hello.txt"] /\
     Types.status js' = "plan_ready") /\
  (exists w',
     step (after saving) (EvReply 0 (RErr None) "t2") = Some w' /\
     jobStatus (state w') = Some (report "plan_ready" None) /\
     error (state w') = Some "Error saving plan").
Proof.
  split; [vm_compute; reflexivity|].
  pose proof (handleSaveTaskPlan_replaces_only_the_plan
                (after saving) (report "plan_ready" None) 0 "abc"
                ["Open Notepad"; "Type Hello"; "Save as hello.txt"] "t2"
                eq_refl eq_refl) as [Hok Herr].
  split.
  - destruct (Hok DOther) as (w' & js' & Hstep & Hjs & Hp & Hst & _).
    exists w', js'. repeat (split; [eassumption|]). exact Hst.
  - destruct (Herr None) as (w' & Hstep & Hjs & _ & _ & He).
    exists w'. repeat (split; [eassumption|]). exact He.
Defined.

(** C7 on the run [polled]: the status request fails, nothing changes, and
    the next tick asks again. *)
Lemma poll_failure_is_only_logged_witness :
  run mounted polled = Some (after polled) /\
  exists w',
    step (after polled) (EvReply 0 (RErr (Some "503")) "t1") = Some w' /\
    state w' = state (after polled) /\
    timers w' = {[ 1%positive := poller "abc" ]} /\
    error (state w') = None /\
    exists w'',
      step w' (EvTick 1%positive) = Some w'' /\
      inflight w'' = [GetStatus "abc"].
Proof.
  split; [vm_compute; reflexivity|].
  destruct (poll_failure_is_only_logged
              (after polled) 0 "abc" (Some "503") "t1")
    as (w' & Hstep & Hs & Ht & _ & _ & Hi & Htick).
  - exists polled. vm_compute. reflexivity.
  - vm_compute. reflexivity.
  - exists w'. split; [exact Hstep|]. split; [exact Hs|].
    split; [rewrite Ht; vm_compute; reflexivity|].
    split; [rewrite Hs; vm_compute; reflexivity|].
    destruct (Htick 1%positive (poller "abc")) as (w'' & Hstep' & Hi' & _).
    + vm_compute. reflexivity.
    + exists w''. split; [exact Hstep'|]. rewrite Hi', Hi.
      vm_compute. reflexivity.
Defined.

End Runs.

(** ** The tutorial library: loading, screens and selections *)
Section LibraryScreens.

Import TutorialLibrary.

(** The message of a [catch] branch is never empty: the server's message
    when it has one, the fallback otherwise. *)
Lemma orElse_truthy e d : Js.truthy d = true -> Js.truthy (Js.orElse e d) = true.
Proof.
  intros Hd. unfold Js.orElse. destruct e as [m|]; [|exact Hd].
  destruct (Js.truthy m) eqn:Hm; [exact Hm | exact Hd].
Qed.

Lemma orElse_server e d m :
  e = Some m -> Js.truthy m = true -> Js.orElse e d = m.
Proof. intros -> Hm. unfold Js.orElse. now rewrite Hm. Qed.

(** What a list request does to the component: while it is outstanding the
    spinner is shown; a successful reply replaces the collection wholesale
    and clears the error; a failed reply keeps the collection, stores a
    message that is never empty (the server's when it sent one) and shows the
    error screen; either reply ends the loading and leaves the selections and
    the alerts alone. *)
Theorem fetchTutorials_replaces_or_keeps (w : World) (i : nat) :
  inflight w !! i = Some GetTutorials ->
  (forall l, exists w',
      step w (EvReply i (ROk (DTutorials l))) = Some w' /\
      tutorials (state w') = l /\
      error (state w') = None /\
      loading (state w') = false /\
      expandedId (state w') = expandedId (state w) /\
      playingId (state w') = playingId (state w) /\
      alerts w' = alerts w /\
      inflight w' = delete i (inflight w)) /\
  (forall e, exists w' msg,
      step w (EvReply i (RErr e)) = Some w' /\
      tutorials (state w') = tutorials (state w) /\
      error (state w') = Some msg /\
      Js.truthy msg = true /\
      (forall m, e = Some m -> Js.truthy m = true -> msg = m) /\
      (e = None -> msg = "Failed to load tutorials") /\
      loading (state w') = false /\
      view (state w') = ErrorState msg /\
      expandedId (state w') = expandedId (state w) /\
      playingId (state w') = playingId (state w) /\
      alerts w' = alerts w) /\
  (view (state (fetchTutorials w)) = Spinner /\
   tutorials (state (fetchTutorials w)) = tutorials (state w) /\
   error (state (fetchTutorials w)) = error (state w) /\
   inflight (fetchTutorials w) = GetTutorials :: inflight w).
Proof.
  intros Hi. split; [|split].
  - intros l. eexists. unfold step. rewrite Hi. split; [reflexivity|].
    simpl. repeat split.
  - intros e. exists (fetchTutorials_finally (fetchTutorials_catch e (answered i w))),
                     (Js.orElse e "Failed to load tutorials").
    unfold step. rewrite Hi. split; [reflexivity|].
    assert (Js.truthy (Js.orElse e "Failed to load tutorials") = true) as Ht
      by now apply orElse_truthy.
    simpl. split; [reflexivity|]. split; [reflexivity|]. split; [exact Ht|].
    split; [intros m Hm Hmt; now apply orElse_server|].
    split; [now intros ->|]. split; [reflexivity|].
    split; [|repeat split].
    unfold view; simpl. now rewrite Ht.
  - repeat split.
Qed.

(** A failed refresh keeps the collection in the cells but takes it off the
    screen: the error screen offers the retry and no card control; a retry
    that succeeds shows the new collection, or the empty state when it is
    empty. *)
Theorem failed_refresh_hides_list_until_retry (w : World)
    (e : option string) (l : list Tutorial) :
  exists w1 w2 msg,
    step (fetchTutorials w) (EvReply 0 (RErr e)) = Some w1 /\
    tutorials (state w1) = tutorials (state w) /\
    view (state w1) = ErrorState msg /\
    offers (state w1) EvRefresh = true /\
    (forall i c, offers (state w1) (EvDelete i c) = false) /\
    (forall i, offers (state w1) (EvToggleExpand i) = false) /\
    (forall i, offers (state w1) (EvTogglePlay i) = false) /\
    view (state (fetchTutorials w1)) = Spinner /\
    step (fetchTutorials w1) (EvReply 0 (ROk (DTutorials l))) = Some w2 /\
    tutorials (state w2) = l /\
    view (state w2)
    = match l with
      | [] => EmptyState
      | _ => Grid (length l) (map (card (state w2)) l)
      end /\
    inflight w2 = inflight w.
Proof.
  assert (Js.truthy (Js.orElse e "Failed to load tutorials") = true) as Ht
    by now apply orElse_truthy.
  do 2 eexists. exists (Js.orElse e "Failed to load tutorials").
  split; [reflexivity|]. split; [reflexivity|].
  assert (forall s : State,
             loading s = false ->
             error s = Some (Js.orElse e "Failed to load tutorials") ->
             view s = ErrorState (Js.orElse e "Failed to load tutorials"))
    as Hview.
  { intros s Hl He. unfold view. now rewrite Hl, He, Ht. }
  split; [now apply Hview|].
  unfold offers. rewrite Hview by reflexivity.
  do 4 (split; [reflexivity|]).
  split; [reflexivity|]. split; [reflexivity|]. split; [reflexivity|].
  split; [|reflexivity].
  unfold view; simpl. now destruct l.
Qed.

Lemma is_id_refl i : is_id (Some i) i = true.
Proof. simpl. apply String.eqb_refl. Qed.

(** Collapsing and expanding. A click on the header of the expanded card
    collapses it and stops whatever is playing, on that card or on another;
    a click on any other header expands that card and leaves the playback
    alone; no click touches the collection, the loading flag, the error, the
    requests or the alerts. Two clicks on the same header leave nothing
    playing, and give back the expansion only when it was that card or none. *)
Theorem toggleExpand_collapse_stops_playback (w : World) (i : string) :
  (expandedId (state w) = Some i ->
   expandedId (state (toggleExpand i w)) = None /\
   playingId (state (toggleExpand i w)) = None) /\
  (expandedId (state w) <> Some i ->
   expandedId (state (toggleExpand i w)) = Some i /\
   playingId (state (toggleExpand i w)) = playingId (state w)) /\
  (tutorials (state (toggleExpand i w)) = tutorials (state w) /\
   loading (state (toggleExpand i w)) = loading (state w) /\
   error (state (toggleExpand i w)) = error (state w) /\
   inflight (toggleExpand i w) = inflight w /\
   alerts (toggleExpand i w) = alerts w) /\
  (playingId (state (toggleExpand i (toggleExpand i w))) = None /\
   expandedId (state (toggleExpand i (toggleExpand i w)))
   = if decide (expandedId (state w) = Some i) then Some i else None).
Proof.
  unfold toggleExpand.
  destruct (is_id (expandedId (state w)) i) eqn:He.
  - apply is_id_true in He. rewrite decide_True by exact He.
    split; [intros _; split; reflexivity|].
    split; [intros Hne; contradiction|].
    split; [repeat split|]. simpl. split; reflexivity.
  - apply is_id_false in He. rewrite decide_False by exact He.
    split; [intros Heq; contradiction|].
    split; [intros _; split; reflexivity|].
    split; [repeat split|]. simpl. rewrite String.eqb_refl. split; reflexivity.
Qed.

(** Playing and closing. A click on a play button plays that card, in place
    of whatever was playing, or closes it when it was the one playing; the
    expansion and everything else stay. Play followed by close, or close
    followed by play, on the card that was playing or with nothing playing,
    gives back the component exactly as it was. *)
Theorem togglePlay_then_close_restores (w : World) (i : string) :
  (playingId (state w) = Some i -> playingId (state (togglePlay i w)) = None) /\
  (playingId (state w) <> Some i ->
   playingId (state (togglePlay i w)) = Some i) /\
  (expandedId (state (togglePlay i w)) = expandedId (state w) /\
   tutorials (state (togglePlay i w)) = tutorials (state w) /\
   loading (state (togglePlay i w)) = loading (state w) /\
   error (state (togglePlay i w)) = error (state w) /\
   inflight (togglePlay i w) = inflight w /\
   alerts (togglePlay i w) = alerts w) /\
  (playingId (state w) = Some i \/ playingId (state w) = None ->
   togglePlay i (togglePlay i w) = w) /\
  (forall j, playingId (state w) = Some j -> j <> i ->
   playingId (state (togglePlay i (togglePlay i w))) = None).
Proof.
  unfold togglePlay.
  split; [|split; [|split; [|split]]].
  - intros Hp. simpl. rewrite Hp, is_id_refl. reflexivity.
  - intros Hp. simpl. apply is_id_false in Hp. now rewrite Hp.
  - repeat split.
  - intros Hp. destruct w as [[ts ld er ex pl] fl al]; simpl in *.
    destruct Hp as [-> | ->]; simpl; rewrite ?String.eqb_refl; simpl;
      rewrite ?String.eqb_refl; reflexivity.
  - intros j Hp Hne. simpl. rewrite Hp. simpl.
    apply String.eqb_neq in Hne. rewrite Hne. simpl.
    now rewrite String.eqb_refl.
Qed.

(** Among tutorials with distinct ids, at most one has a given id. *)
Lemma at_most_one_with_id (x : option string) (l : list Tutorial) :
  NoDup (map id l) ->
  length (List.filter (fun t => is_id x (id t)) l) <= 1.
Proof.
  destruct x as [y|]; simpl.
  - induction l as [|t l IH]; simpl; intros Hnd; [lia|].
    apply NoDup_cons in Hnd as [Hnotin Hnd].
    destruct (String.eqb y (id t)) eqn:Hy; [|now apply IH].
    apply String.eqb_eq in Hy. simpl.
    assert (List.filter (fun t0 => String.eqb y (id t0)) l = []) as ->; [|simpl; lia].
    clear IH Hnd. induction l as [|u l IHl]; simpl; [reflexivity|].
    destruct (String.eqb y (id u)) eqn:Hu.
    + apply String.eqb_eq in Hu. exfalso. apply Hnotin.
      simpl. replace (id t) with (id u) by congruence. left.
    + apply IHl. intros Hin. apply Hnotin. simpl. now right.
  - intros _. induction l as [|t l IH]; simpl; [lia | exact IH].
Qed.

Lemma filter_map_card (s : State) (f : Card -> bool) (l : list Tutorial) :
  length (List.filter f (map (card s) l))
  = length (List.filter (fun t => f (card s t)) l).
Proof.
  induction l as [|t l IH]; simpl; [reflexivity|].
  destruct (f (card s t)); simpl; now rewrite IH.
Qed.

(** On the grid no card shows its video and its details together, details
    are shown only on an expanded card, and when the ids of the collection
    are distinct at most one card shows a video, at most one is expanded and
    at most one shows details. *)
Theorem grid_shows_one_video_at_most (s : State) :
  (forall t, cardVideo (card s t) && cardDetails (card s t) = false) /\
  (forall t, cardDetails (card s t) = true -> cardExpanded (card s t) = true) /\
  (NoDup (map id (tutorials s)) ->
   length (List.filter cardVideo (map (card s) (tutorials s))) <= 1 /\
   length (List.filter cardExpanded (map (card s) (tutorials s))) <= 1 /\
   length (List.filter cardDetails (map (card s) (tutorials s))) <= 1).
Proof.
  split; [|split].
  - intros t. simpl. destruct (is_id (playingId s) (id t)); simpl;
      [apply andb_false_r | reflexivity].
  - intros t. simpl. now intros [H _]%andb_true_iff.
  - intros Hnd. rewrite !filter_map_card. simpl.
    pose proof (at_most_one_with_id (playingId s) _ Hnd) as Hp.
    pose proof (at_most_one_with_id (expandedId s) _ Hnd) as He.
    split; [exact Hp|]. split; [exact He|].
    eapply Nat.le_trans; [|exact He].
    clear. induction (tutorials s) as [|t l IH]; simpl; [lia|].
    destruct (is_id (expandedId s) (id t)); simpl.
    + destruct (negb (is_id (playingId s) (id t))); simpl; lia.
    + exact IH.
Qed.

(** A delete that is confirmed, accepted and answered at once, written out. *)
Lemma deleted_ok (w : World) (x : string) (d : Data) :
  deleted x (ROk d) w
  = Some {| state :=
              {| tutorials := List.filter (keeps x) (tutorials (state w));
                 loading := loading (state w);
                 error := error (state w);
                 expandedId := if is_id (expandedId (state w)) x then None
                               else expandedId (state w);
                 playingId := if is_id (playingId (state w)) x then None
                              else playingId (state w) |};
            inflight := inflight w;
            alerts := alerts w |}.
Proof.
  rewrite deleted_unfold. simpl. unfold handleDelete_then.
  destruct (is_id (expandedId (state w)) x),
           (is_id (playingId (state w)) x); reflexivity.
Qed.

Lemma filter_filter_comm {A} (f g : A -> bool) (l : list A) :
  List.filter f (List.filter g l) = List.filter g (List.filter f l).
Proof.
  induction l as [|x l IH]; simpl; [reflexivity|].
  destruct (f x) eqn:Hf, (g x) eqn:Hg; simpl; rewrite ?Hf, ?Hg, ?IH;
    reflexivity.
Qed.

Lemma filter_filter_same {A} (f : A -> bool) (l : list A) :
  List.filter f (List.filter f l) = List.filter f l.
Proof.
  induction l as [|x l IH]; simpl; [reflexivity|].
  destruct (f x) eqn:Hf; simpl; rewrite ?Hf, ?IH; reflexivity.
Qed.

Lemma filter_all {A} (f : A -> bool) (l : list A) :
  (forall x, In x l -> f x = true) -> List.filter f l = l.
Proof.
  induction l as [|x l IH]; simpl; intros H; [reflexivity|].
  rewrite (H x) by now left. f_equal. apply IH. intros y Hy. apply H. now right.
Qed.

(** Deletes that are answered one after the other. The order of two deletes
    does not matter; a second delete of the same id changes nothing more; and
    a delete of an id that no entry has leaves the collection as it is. *)
Theorem deletes_commute_and_repeat (w : World) (a b : string) (da db : Data) :
  (deleted a (ROk da) w ≫= deleted b (ROk db))
  = (deleted b (ROk db) w ≫= deleted a (ROk da)) /\
  (deleted a (ROk da) w ≫= deleted a (ROk db)) = deleted a (ROk da) w /\
  ((forall t, In t (tutorials (state w)) -> id t <> a) ->
   exists w',
     deleted a (ROk da) w = Some w' /\
     tutorials (state w') = tutorials (state w) /\
     alerts w' = alerts w /\ inflight w' = inflight w).
Proof.
  assert (forall (x y : string) (e : option string),
             (if is_id (if is_id e x then None else e) y then None
              else if is_id e x then None else e)
             = (if is_id (if is_id e y then None else e) x then None
                else if is_id e y then None else e)) as Hsel.
  { intros x y e. destruct (is_id e x) eqn:Hx, (is_id e y) eqn:Hy; simpl;
      rewrite ?Hx, ?Hy; reflexivity. }
  split; [|split].
  - rewrite !deleted_ok. simpl. rewrite !deleted_ok. simpl.
    rewrite (filter_filter_comm (keeps b) (keeps a)).
    rewrite (Hsel a b (expandedId (state w))), (Hsel a b (playingId (state w))).
    reflexivity.
  - rewrite !deleted_ok. simpl. rewrite !deleted_ok. simpl.
    rewrite filter_filter_same.
    destruct (is_id (expandedId (state w)) a) eqn:He,
             (is_id (playingId (state w)) a) eqn:Hp; simpl;
      rewrite ?He, ?Hp; reflexivity.
  - intros Habsent. rewrite deleted_ok. eexists. split; [reflexivity|].
    simpl. split; [|split; reflexivity].
    apply filter_all. intros t Ht. apply keeps_true. now apply Habsent.
Qed.

(** What removing one outstanding request does to the list requests. *)
Lemma listRequests_answered (w : World) i r :
  inflight w !! i = Some r ->
  match r with
  | GetTutorials =>
      S (length (listRequests (answered i w))) = length (listRequests w)
  | DeleteTutorial _ _ => listRequests (answered i w) = listRequests w
  end.
Proof.
  unfold listRequests, answered; simpl.
  generalize (inflight w). intros l. revert i.
  induction l as [|x l IH]; intros i Hi; [discriminate|].
  destruct i as [|i]; simpl in Hi.
  - injection Hi as ->. destruct r; reflexivity.
  - specialize (IH i Hi). simpl. destruct r, x; simpl; congruence.
Qed.

Lemma In_answered (w : World) i r :
  In r (inflight (answered i w)) -> In r (inflight w).
Proof.
  unfold answered; simpl. generalize (inflight w). intros l. revert i.
  induction l as [|x l IH]; intros i; [destruct i; simpl; tauto|].
  destruct i as [|i]; simpl; [tauto|]. intros [->|H]; [now left|].
  right. eapply IH, H.
Qed.

Lemma view_not_loading (s : State) :
  view s <> Spinner -> loading s = false.
Proof.
  unfold view. destruct (loading s); [congruence | reflexivity].
Qed.

Lemma offers_grid (s : State) (i : string) :
  match view s with Grid _ _ => true | _ => false end = true ->
  existsb (fun t => String.eqb (id t) i) (tutorials s) = true ->
  loading s = false /\ exists t, In t (tutorials s) /\ id t = i.
Proof.
  intros Hg Hex. split.
  - apply view_not_loading. intros Hs. rewrite Hs in Hg. discriminate.
  - apply existsb_exists in Hex as (t & Ht & He).
    apply String.eqb_eq in He. eauto.
Qed.

Lemma step_tidy (w w' : World) (e : Event) :
  tidy w -> offers (state w) e = true -> step w e = Some w' -> tidy w'.
Proof.
  intros (Hn & He & Hd) Hoff Hstep.
  destruct e as [|i c|i|i|k reply]; simpl in Hstep.
  - injection Hstep as <-.
    assert (loading (state w) = false) as Hl.
    { apply view_not_loading. intros Hs. unfold offers in Hoff.
      rewrite Hs in Hoff. discriminate. }
    rewrite Hl in Hn. unfold tidy, listRequests in *; simpl.
    split; [now rewrite Hn|]. split; [exact He|].
    intros i c [Hin|Hin]; [discriminate | now apply Hd].
  - injection Hstep as <-.
    assert (exists t, In t (tutorials (state w)) /\ id t = i) as Hex.
    { unfold offers in Hoff.
      destruct (view (state w)) eqn:Hv; try discriminate.
      apply (offers_grid (state w) i); [now rewrite Hv | exact Hoff]. }
    unfold handleDelete. destruct c; simpl; [|repeat split; assumption].
    unfold tidy, listRequests in *; simpl.
    split; [exact Hn|]. split; [exact He|].
    intros j c [Hin|Hin]; [|now apply Hd].
    injection Hin as <- <-. exact Hex.
  - injection Hstep as <-. unfold toggleExpand.
    destruct (is_id (expandedId (state w)) i); repeat split; assumption.
  - injection Hstep as <-. repeat split; assumption.
  - destruct (inflight w !! k) as [r|] eqn:Hk; [|discriminate].
    pose proof (listRequests_answered w k r Hk) as Hans.
    assert (forall i c, In (DeleteTutorial i c) (inflight (answered k w)) ->
                        exists t, In t (tutorials c) /\ id t = i) as Hd'
      by (intros i c Hin; apply (Hd i c), (In_answered w k), Hin).
    destruct r as [|i c], reply as [[l|]|err]; simpl in Hstep;
      try discriminate; injection Hstep as <-.
    + destruct (loading (state w)); [|lia].
      repeat split; simpl; try exact Hd'; [|discriminate].
      unfold listRequests in *; simpl in *. lia.
    + destruct (loading (state w)); [|lia].
      repeat split; simpl; try exact Hd'.
      * unfold listRequests in *; simpl in *. lia.
      * intros e Hee. injection Hee as <-. now apply orElse_truthy.
    + unfold handleDelete_then.
      destruct (is_id (expandedId c) i), (is_id (playingId c) i);
        (split; [|split]); simpl; try exact He; try exact Hd';
        unfold listRequests in *; simpl in *; now rewrite Hans.
    + unfold handleDelete_then.
      destruct (is_id (expandedId c) i), (is_id (playingId c) i);
        (split; [|split]); simpl; try exact He; try exact Hd';
        unfold listRequests in *; simpl in *; now rewrite Hans.
    + repeat split; simpl; try exact He; try exact Hd'.
      unfold listRequests in *; simpl in *. now rewrite Hans.
Qed.

Lemma run_tidy es : forall w w' : World,
  tidy w -> run w es = Some w' -> tidy w'.
Proof.
  induction es as [|e es IH]; simpl; intros w w' Hw Hrun.
  - now injection Hrun as <-.
  - destruct (offers (state w) e) eqn:Hoff; [|discriminate].
    destruct (step w e) as [w1|] eqn:Hstep; [|discriminate].
    eapply IH; [|exact Hrun]. eapply step_tidy; eassumption.
Qed.

Lemma mounted_tidy : tidy mounted.
Proof.
  repeat split; simpl; try discriminate. intros i c [H|[]]. discriminate.
Qed.

(** When the component is driven through the controls its screens offer,
    from the mount on: at most one list request is outstanding at a time and
    the spinner is on the screen exactly while one is; an error, once
    stored, is never the empty text, so the error screen is shown whenever
    an error is stored and nothing loads; and every outstanding delete names
    an id that an entry of the collection had when its button was clicked. *)
Theorem spinner_iff_list_request_outstanding (w : World) :
  reachable w ->
  length (listRequests w) <= 1 /\
  (view (state w) = Spinner <-> listRequests w <> []) /\
  (forall e, error (state w) = Some e ->
     Js.truthy e = true /\
     (loading (state w) = false -> view (state w) = ErrorState e)) /\
  (forall i c, In (DeleteTutorial i c) (inflight w) ->
     exists t, In t (tutorials c) /\ id t = i).
Proof.
  intros [es Hrun].
  pose proof (run_tidy es _ _ mounted_tidy Hrun) as (Hn & He & Hd).
  split; [destruct (loading (state w)); lia|].
  split; [|split; [|exact Hd]].
  - unfold view. destruct (loading (state w)).
    + split; [intros _ Hnil; rewrite Hnil in Hn; discriminate | reflexivity].
    + apply length_zero_iff_nil in Hn. rewrite Hn. split; [|congruence].
      destruct (error (state w)) as [e|]; [destruct (Js.truthy e)|];
        destruct (tutorials (state w)); discriminate.
  - intros e Hee. pose proof (He e Hee) as Ht. split; [exact Ht|].
    intros Hl. unfold view. now rewrite Hl, Hee, Ht.
Qed.

End LibraryScreens.

(** ** The engine: addresses, screens and whole actions *)
Section EngineScreens.

Context {TaskPlan Results : Type}.

Import App.

Abbreviation World := (@App.World TaskPlan Results).
Abbreviation State := (@App.State TaskPlan Results).
Abbreviation JobStatus := (Types.JobStatus TaskPlan Results).
Abbreviation Request := (@App.Request TaskPlan).
Abbreviation Obs := (@App.Obs TaskPlan).

Lemma render_log (w : World) : log (render w) = log w.
Proof.
  unfold render, runEffect, runCleanup, clearPolling.
  destruct (decide _); [reflexivity|].
  destruct (effectCleanup w); [destruct (pollingRef w)|]; simpl;
    destruct (pollTarget (state w)); reflexivity.
Qed.

Lemma lastCreated_created (l : list Obs) j :
  lastCreated l = Some j -> In j (created l).
Proof.
  induction l as [|o l IH]; simpl; [discriminate|].
  destruct o; simpl; auto. intros H; injection H as ->. now left.
Qed.

Lemma created_later (o : Obs) (l : list Obs) j :
  In j (created l) -> In j (created (o :: l)).
Proof. destruct o; simpl; auto. Qed.

Lemma addressed_sent (l : list Obs) (r : Request) j :
  addressed l -> In (Sent r) l -> jobOf r = Some j -> In j (created l).
Proof.
  induction l as [|o l IH]; simpl; [tauto|].
  intros Ha [Ho|Hin] Hj.
  - subst o. destruct Ha as [Hr _]. rewrite Hj in Hr. exact Hr.
  - apply created_later. apply IH; [|exact Hin|exact Hj].
    destruct o; simpl in Ha; tauto.
Qed.

Lemma outstanding_before (w : World) i (r : Request) :
  In r (inflight (answered i w)) -> In r (inflight w).
Proof.
  unfold answered; simpl. generalize (inflight w). intros l. revert i.
  induction l as [|x l IH]; intros i; [destruct i; simpl; tauto|].
  destruct i as [|i]; simpl; [tauto|]. intros [->|H]; [now left|].
  right. eapply IH, H.
Qed.

Lemma send_recorded (w : World) (r : Request) :
  recorded w ->
  (forall j, jobOf r = Some j -> In j (created (log w))) ->
  recorded (send r w).
Proof.
  intros (Ha & Hin) Hj. split; simpl.
  - split; [|exact Ha]. destruct (jobOf r); auto.
  - intros r' [->|H]; [now left | right; now apply Hin].
Qed.

Lemma upd_recorded (w : World) f : recorded w -> recorded (upd f w).
Proof. intros H; exact H. Qed.

Lemma activeId_created (w : World) j :
  polling_inv w -> activeId (state w) = Some j -> In j (created (log w)).
Proof.
  intros (_ & _ & Hlast) Hact. apply lastCreated_created, Hlast.
  unfold activeId in Hact. destruct (jobId (state w)) as [j0|]; [|discriminate].
  destruct (Js.truthy j0); congruence.
Qed.

Lemma handle_recorded (w w1 : World) e :
  polling_inv w -> recorded w -> handle w e = Some w1 -> recorded w1.
Proof.
  intros Hinv Hrec Hh.
  destruct e as [ins|plan| | | |t|i reply now]; simpl in Hh.
  - injection Hh as <-. apply send_recorded; [exact Hrec | discriminate].
  - injection Hh as <-. unfold handleSaveTaskPlan.
    destruct (activeId (state w)) as [j|] eqn:Hact; [|exact Hrec].
    apply send_recorded; [exact Hrec|].
    intros j' Hj'. injection Hj' as <-. now apply activeId_created.
  - injection Hh as <-. unfold handleExecute.
    destruct (activeId (state w)) as [j|] eqn:Hact; [|exact Hrec].
    apply send_recorded; [exact Hrec|].
    intros j' Hj'. injection Hj' as <-. now apply activeId_created.
  - injection Hh as <-. unfold handleRegenerate.
    destruct (activeId (state w)) as [j|] eqn:Hact; [|exact Hrec].
    apply send_recorded; [exact Hrec|].
    intros j' Hj'. injection Hj' as <-. now apply activeId_created.
  - injection Hh as <-. unfold resetAll, clearPolling; simpl.
    destruct (pollingRef w); exact Hrec.
  - destruct (timers w !! t) as [iv|] eqn:Hl; [|discriminate].
    injection Hh as <-. apply send_recorded; [exact Hrec|].
    intros j' Hj'. injection Hj' as <-.
    destruct (inv_live w t iv Hinv Hl) as (j & -> & _ & _ & _ & Hlast & _).
    now apply lastCreated_created.
  - destruct (inflight w !! i) as [r|] eqn:Hi; [|discriminate].
    assert (recorded (answered i w)) as Hra.
    { destruct Hrec as (Ha & Hin). split; [exact Ha|].
      intros r' Hr'. apply Hin, (outstanding_before w i), Hr'. }
    destruct Hra as (Ha & Hin).
    destruct r as [ins|j|j plan|j|j], reply as [[job_id|data|]|err];
      simpl in Hh; try discriminate; injection Hh as <-;
      try (split; [exact Ha | exact Hin]).
    + split; [exact Ha|]. intros r' Hr'. right. now apply Hin.
    + unfold tick_then.
      destruct (Js.includes settled (Types.status data));
        [unfold clearPolling; simpl; destruct (pollingRef w)|];
        (split; [exact Ha | exact Hin]).
    + split; [exact Ha|]. intros r' Hr'. right. now apply Hin.
Qed.

Lemma render_recorded (w : World) : recorded w -> recorded (render w).
Proof.
  unfold recorded. now rewrite render_log, render_inflight.
Qed.

Lemma run_recorded es : forall w w' : World,
  polling_inv w -> recorded w -> run w es = Some w' -> recorded w'.
Proof.
  induction es as [|e es IH]; simpl; intros w w' Hinv Hrec Hrun.
  - now injection Hrun as <-.
  - destruct (step w e) as [w1|] eqn:Hstep; [|discriminate].
    apply (IH w1 w'); [eapply step_inv; eassumption| |exact Hrun].
    unfold step in Hstep.
    destruct (handle w e) as [w0|] eqn:Hh; [|discriminate].
    injection Hstep as <-. apply render_recorded.
    eapply handle_recorded; eassumption.
Qed.

(** The component only ever asks the server about jobs the server created:
    in every reachable state, each status, save, execute and regenerate
    request in the history names a job id that the plan-creation endpoint had
    returned before the request was sent; every outstanding request is in
    the history, so the same holds of the requests still waiting for a
    reply; and the job id in the cells and the target of a live interval are
    created ids too. *)
Theorem requests_name_created_jobs (w : World) :
  reachable w ->
  addressed (log w) /\
  (forall r, In r (inflight w) -> In (Sent r) (log w)) /\
  (forall r j, In r (inflight w) -> jobOf r = Some j ->
               In j (created (log w))) /\
  (forall j, jobId (state w) = Some j -> In j (created (log w))) /\
  (forall t iv, timers w !! t = Some iv -> In (target iv) (created (log w))).
Proof.
  intros Hreach. pose proof (reachable_inv w Hreach) as Hinv.
  destruct Hreach as [es Hrun].
  assert (recorded w) as (Ha & Hin).
  { apply (run_recorded es mounted w); [apply mounted_inv| |exact Hrun].
    split; simpl; tauto. }
  split; [exact Ha|]. split; [exact Hin|]. split; [|split].
  - intros r j Hr Hj. eapply addressed_sent; eauto.
  - intros j Hj. destruct Hinv as (_ & _ & Hlast).
    now apply lastCreated_created, Hlast.
  - intros t iv Hl.
    destruct (inv_live w t iv Hinv Hl) as (j & -> & _ & _ & _ & Hlast & _).
    now apply lastCreated_created.
Qed.

(** A reply whose handler leaves the dependencies of the effect alone causes
    no effect run. *)
Lemma step_reply_quiet (w w1 : World) i r reply now :
  polling_inv w ->
  inflight w !! i = Some r ->
  resume r reply now (answered i w) = Some w1 ->
  effectDeps w1 = effectDeps w ->
  deps (state w1) = deps (state w) ->
  step w (EvReply i reply now) = Some w1.
Proof.
  intros (Hd & _) Hi Hr He Hdeps.
  rewrite (step_reply w w1 i r reply now Hi Hr).
  rewrite render_noop; [reflexivity | congruence].
Qed.

Lemma deps_withTaskPlan (s : State) (plan : TaskPlan) :
  deps (setJobStatusWith (fmap (withTaskPlan plan)) s) = deps s.
Proof. unfold deps, setJobStatusWith; simpl. now destruct (jobStatus s). Qed.

(** Saving a plan is invisible to the polling. In every reachable state the
    reply to a save request, success or failure, leaves the live interval,
    [pollingRef], the loading flag, the job id and the job's status as they
    were and writes nothing to the history; the call itself changes no cell
    and no interval, and sends its request only when there is a job id. *)
Theorem save_leaves_polling_alone (w : World) (i : nat) (j : string)
    (plan : TaskPlan) (now : string) :
  reachable w ->
  inflight w !! i = Some (PutTaskPlan j plan) ->
  (forall reply, exists w',
      step w (EvReply i reply now) = Some w' /\
      timers w' = timers w /\
      pollingRef w' = pollingRef w /\
      isLoading (state w') = isLoading (state w) /\
      jobId (state w') = jobId (state w) /\
      Types.status <$> jobStatus (state w') = Types.status <$> jobStatus (state w) /\
      showLibrary (state w') = showLibrary (state w) /\
      log w' = log w) /\
  (forall plan', exists w',
      step w (EvSave plan') = Some w' /\
      state w' = state w /\
      timers w' = timers w /\
      (activeId (state w) = None -> w' = w) /\
      (forall j', activeId (state w) = Some j' ->
                  inflight w' = PutTaskPlan j' plan' :: inflight w)).
Proof.
  intros Hreach Hi. pose proof (reachable_inv w Hreach) as Hinv.
  split.
  - intros [data|e]; eexists;
      (split; [eapply (step_reply_quiet w _ i _ _ now Hinv Hi);
               [reflexivity | reflexivity |]|]).
    + apply deps_withTaskPlan.
    + simpl. repeat (split; [reflexivity|]).
      split; [|split; reflexivity].
      unfold setJobStatusWith; simpl. now destruct (jobStatus (state w)).
    + reflexivity.
    + simpl. repeat (split; [reflexivity|]). reflexivity.
  - intros plan'. exists (handleSaveTaskPlan plan' w).
    assert (state (handleSaveTaskPlan plan' w) = state w
            /\ effectDeps (handleSaveTaskPlan plan' w) = effectDeps w
            /\ timers (handleSaveTaskPlan plan' w) = timers w) as (Hs & He & Ht)
      by (unfold handleSaveTaskPlan; destruct (activeId (state w)); auto).
    split.
    + unfold step; simpl. rewrite render_noop; [reflexivity|].
      destruct Hinv as (Hd & _). congruence.
    + split; [exact Hs|]. split; [exact Ht|].
      unfold handleSaveTaskPlan. split.
      * now intros ->.
      * now intros j' ->.
Qed.

(** Calling execute or regenerate with a job id present turns the loading
    flag on, takes the error banner down and sends the request for that id;
    the job and the polling stay as they are until the reply. *)
Theorem execute_call_marks_loading (w : World) (j : string) :
  reachable w ->
  activeId (state w) = Some j ->
  (exists w',
      step w EvExecute = Some w' /\
      inflight w' = PostExecute j :: inflight w /\
      isLoading (state w') = true /\
      errorBanner (view (state w')) = None /\
      jobStatus (state w') = jobStatus (state w) /\
      jobId (state w') = jobId (state w) /\
      timers w' = timers w) /\
  (exists w',
      step w EvRegenerate = Some w' /\
      inflight w' = PostRegenerate j :: inflight w /\
      isLoading (state w') = true /\
      errorBanner (view (state w')) = None /\
      jobStatus (state w') = jobStatus (state w) /\
      jobId (state w') = jobId (state w) /\
      timers w' = timers w).
Proof.
  intros Hreach Hact. pose proof (reachable_inv w Hreach) as (Hd & _).
  split.
  - exists (handleExecute w). unfold step; simpl.
    unfold handleExecute. rewrite Hact.
    rewrite render_noop by exact Hd. repeat split.
  - exists (handleRegenerate w). unfold step; simpl.
    unfold handleRegenerate. rewrite Hact.
    rewrite render_noop by exact Hd. repeat split.
Qed.

(** A failed execute or regenerate request, in every reachable state: the
    job, its status and the job id are exactly as before, the polling is
    untouched, the loading flag is off again, and the error banner shows a
    message that is never empty: the server's when it sent one, the
    handler's fallback otherwise. *)
Theorem failed_execute_keeps_job_shows_banner (w : World) (i : nat)
    (r : Request) (e : option string) (now : string) :
  reachable w ->
  inflight w !! i = Some r ->
  (exists j, r = PostExecute j \/ r = PostRegenerate j) ->
  exists w' msg,
    step w (EvReply i (RErr e) now) = Some w' /\
    jobStatus (state w') = jobStatus (state w) /\
    jobId (state w') = jobId (state w) /\
    isLoading (state w') = false /\
    errorBanner (view (state w')) = Some msg /\
    Js.truthy msg = true /\
    (forall m, e = Some m -> Js.truthy m = true -> msg = m) /\
    (e = None ->
     msg = match r with PostExecute _ => "Error executing"
                   | _ => "Error regenerating" end) /\
    timers w' = timers w /\
    pollingRef w' = pollingRef w.
Proof.
  intros Hreach Hi (j & Hr). pose proof (reachable_inv w Hreach) as Hinv.
  assert (exists d, Js.truthy d = true /\
                    d = match r with PostExecute _ => "Error executing"
                              | _ => "Error regenerating" end /\
                    resume r (RErr e) now (answered i w)
                    = Some (upd (setIsLoading false)
                              (upd (setError (Some (Js.orElse e d)))
                                 (answered i w)))) as (d & Hd & Hdr & Hres).
  { destruct Hr as [-> | ->];
      [exists "Error executing" | exists "Error regenerating"];
      repeat split. }
  exists (upd (setIsLoading false)
            (upd (setError (Some (Js.orElse e d))) (answered i w))),
         (Js.orElse e d).
  pose proof (orElse_truthy e d Hd) as Ht.
  split; [now apply (step_reply_quiet w _ i r _ now Hinv Hi)|].
  simpl. repeat (split; [reflexivity|]).
  split; [unfold view, whenTruthy; simpl; now rewrite Ht|].
  split; [exact Ht|].
  split; [intros m Hm Hmt; now apply orElse_server|].
  split; [|split; reflexivity].
  intros ->. rewrite <- Hdr. reflexivity.
Qed.

(** Without a job id, be it [null] or the empty string, save, execute and
    regenerate do nothing at all: no request, no change of any cell, no
    render; and no interval is live. *)
Theorem no_job_id_no_action (w : World) :
  reachable w ->
  activeId (state w) = None ->
  (forall plan, step w (EvSave plan) = Some w) /\
  step w EvExecute = Some w /\
  step w EvRegenerate = Some w /\
  timers w = ∅ /\
  resetButton (view (state w)) = false /\
  form (view (state w)) = Some (isLoading (state w)).
Proof.
  intros Hreach Hact. pose proof (reachable_inv w Hreach) as Hinv.
  assert (render w = w) as Hr
    by (apply render_noop; now destruct Hinv as (Hd & _)).
  assert (resetButton (view (state w)) = false /\
          form (view (state w)) = Some (isLoading (state w))) as Hview.
  { unfold view. cbn [resetButton form]. rewrite Hact.
    rewrite bool_decide_eq_false_2 by tauto. split; reflexivity. }
  assert (timers w = ∅) as Hts.
  { apply inv_guard_off; [exact Hinv|].
    destruct (pollTarget (state w)) as [j|] eqn:Hpt; [|reflexivity].
    apply pollTarget_Some in Hpt as (Hj & Ht & _).
    unfold activeId in Hact. rewrite Hj, Ht in Hact. discriminate. }
  unfold step, handle.
  unfold handleSaveTaskPlan, handleExecute, handleRegenerate. rewrite Hact.
  cbn [fmap option_fmap option_map]. rewrite Hr.
  split; [reflexivity|]. split; [reflexivity|]. split; [reflexivity|].
  split; [exact Hts | exact Hview].
Qed.

(** A reset brings back the first screen: from every reachable state the
    cells after a reset are those of the freshly mounted component, so the
    screen is the first one (the form enabled, the library, no reset button,
    no banner, no indicator, no editor, no player), and no interval is live.
    The outstanding requests and the history are not touched. *)
Theorem reset_restores_first_screen (w : World) :
  reachable w ->
  exists w',
    step w EvReset = Some w' /\
    state w' = state mounted /\
    view (state w') = view (state mounted) /\
    view (state w')
    = {| resetButton := false; form := Some false; errorBanner := None;
         statusIndicator := None; editors := []; videoPlayer := None;
         libraries := 1 |} /\
    timers w' = ∅ /\
    inflight w' = inflight w /\
    log w' = log w.
Proof.
  intros Hreach. pose proof (reachable_inv w Hreach) as Hinv.
  destruct (reset_clears w Hinv) as (Hstep & Hts & _ & _ & Hfl).
  exists (render (resetAll w)).
  assert (state (render (resetAll w)) = state mounted) as Hs.
  { rewrite render_state. unfold resetAll. now rewrite clearPolling_state. }
  split; [exact Hstep|]. split; [exact Hs|]. rewrite Hs.
  split; [reflexivity|]. split; [reflexivity|].
  split; [exact Hts|]. split; [exact Hfl|].
  rewrite render_log. unfold resetAll, clearPolling; simpl.
  now destruct (pollingRef w).
Qed.

Lemma isCompleted_settled (s : State) js :
  jobStatus s = Some js -> isCompleted s = true ->
  Js.includes settled (Types.status js) = true.
Proof.
  unfold isCompleted. intros -> H. apply String.eqb_eq in H. now rewrite H.
Qed.

(** How the parts of the screen exclude each other, in any state: the form
    and the reset button are never on the screen together and one of them
    always is; there is never more than one plan editor; an editor executes
    before the job is completed and regenerates once the player is shown,
    and it shows the job's plan with the current loading flag; the player
    appears only with a completed job that has a video url, together with a
    library; a completed job without a video url gets neither player nor
    editor; the banner never shows an empty text. *)
Theorem screen_parts_exclude (s : State) :
  (resetButton (view s) = true <-> form (view s) = None) /\
  (resetButton (view s) = true <-> exists j, jobId s = Some j /\ Js.truthy j = true) /\
  length (editors (view s)) <= 1 /\
  (forall ed, In ed (editors (view s)) ->
     (onExecute ed = HRegenerate <-> videoPlayer (view s) <> None) /\
     (onExecute ed = HExecute <-> isCompleted s = false) /\
     (exists js, jobStatus s = Some js /\
                 Types.task_plan js = Some (taskPlan ed)) /\
     editorIsLoading ed = isLoading s) /\
  (forall p, videoPlayer (view s) = Some p ->
     isCompleted s = true /\ Js.truthy (videoUrl p) = true /\
     (exists js, jobStatus s = Some js /\
                 Types.video_url js = Some (videoUrl p)) /\
     1 <= libraries (view s)) /\
  (isCompleted s = true ->
   (forall js, jobStatus s = Some js ->
               whenTruthy (Types.video_url js) = None) ->
   editors (view s) = [] /\ videoPlayer (view s) = None) /\
  (forall m, errorBanner (view s) = Some m ->
             Js.truthy m = true /\ error s = Some m).
Proof.
  assert (forall x m, whenTruthy x = Some m -> Js.truthy m = true /\ x = Some m)
    as Hwt.
  { intros [y|] m; simpl; [|discriminate].
    destruct (Js.truthy y) eqn:Hy; [|discriminate].
    intros H; injection H as <-. auto. }
  split; [|split; [|split; [|split; [|split; [|split]]]]].
  - unfold view. cbn [resetButton form].
    destruct (bool_decide (activeId s <> None)); split; congruence.
  - unfold view. cbn [resetButton]. rewrite bool_decide_eq_true.
    unfold activeId. destruct (jobId s) as [j|].
    + destruct (Js.truthy j) eqn:Hj; split.
      * eauto.
      * discriminate.
      * congruence.
      * intros (j' & Hj' & Ht). congruence.
    + split; [congruence|]. intros (j' & Hj' & _). discriminate.
  - unfold view. cbn [editors].
    destruct (jobStatus s) as [js|]; simpl; [|lia].
    destruct (Types.task_plan js), (isCompleted s); simpl;
      try destruct (whenTruthy (Types.video_url js)); simpl; lia.
  - intros ed. unfold view. cbn [editors videoPlayer].
    destruct (jobStatus s) as [js|] eqn:Hjs; simpl; [|tauto].
    destruct (Types.task_plan js) as [p|] eqn:Hp,
             (isCompleted s) eqn:Hc; simpl;
      try destruct (whenTruthy (Types.video_url js)) eqn:Hu; simpl;
      try tauto;
      (intros [<-|[]]; simpl;
       repeat split; try discriminate; try congruence; eauto).
  - intros p. unfold view. cbn [videoPlayer libraries].
    destruct (jobStatus s) as [js|] eqn:Hjs; [|discriminate].
    destruct (isCompleted s) eqn:Hc; [|discriminate].
    destruct (whenTruthy (Types.video_url js)) as [u|] eqn:Hu; [|discriminate].
    intros H; injection H as <-. simpl.
    destruct (Hwt _ _ Hu) as [Ht Hurl].
    split; [reflexivity|]. split; [exact Ht|]. split; [eauto|]. lia.
  - intros Hc Hnone. unfold view. cbn [editors videoPlayer].
    destruct (jobStatus s) as [js|] eqn:Hjs; [|split; reflexivity].
    rewrite Hc, (Hnone js eq_refl). destruct (Types.task_plan js); split; reflexivity.
  - intros m. unfold view. cbn [errorBanner]. apply Hwt.
Qed.

(** While the job is polled the screen is the job's alone: in every
    reachable state with a live interval the reset button is shown and the
    form is not, neither the player nor a library is on the screen, and an
    editor, if shown, executes. So the form can only be submitted, and the
    player only be watched, when no interval is live and no tick can fire. *)
Theorem polled_job_owns_the_screen (w : World) :
  reachable w ->
  (polling w ->
   resetButton (view (state w)) = true /\
   form (view (state w)) = None /\
   videoPlayer (view (state w)) = None /\
   libraries (view (state w)) = 0 /\
   (forall ed, In ed (editors (view (state w))) -> onExecute ed = HExecute)) /\
  (form (view (state w)) <> None -> timers w = ∅) /\
  (videoPlayer (view (state w)) <> None -> timers w = ∅) /\
  (0 < libraries (view (state w)) -> timers w = ∅).
Proof.
  intros Hreach. pose proof (reachable_inv w Hreach) as Hinv.
  assert (polling w ->
          resetButton (view (state w)) = true /\
          form (view (state w)) = None /\
          videoPlayer (view (state w)) = None /\
          libraries (view (state w)) = 0 /\
          (forall ed, In ed (editors (view (state w))) ->
                      onExecute ed = HExecute)) as Hon.
  { intros Hp. apply (inv_polling w Hinv) in Hp.
    destruct (pollTarget (state w)) as [j|] eqn:Hpt; [|congruence].
    apply pollTarget_Some in Hpt as (Hj & Ht & js & Hjs & Hs).
    assert (isCompleted (state w) = false) as Hc.
    { destruct (isCompleted (state w)) eqn:Hc; [|reflexivity].
      pose proof (isCompleted_settled _ _ Hjs Hc). congruence. }
    assert (activeId (state w) = Some j) as Hact
      by (unfold activeId; now rewrite Hj, Ht).
    unfold view. cbn [resetButton form videoPlayer libraries editors].
    rewrite Hact, Hjs, Hc. rewrite bool_decide_eq_true_2 by discriminate.
    rewrite andb_false_r.
    repeat (split; [reflexivity|]).
    intros ed. destruct (Types.task_plan js); simpl; [|tauto].
    now intros [<-|[]]. }
  split; [exact Hon|].
  assert (forall P : Prop, (polling w -> ~ P) -> P -> timers w = ∅) as Hoff.
  { intros P HP Hp. destruct (decide (timers w = ∅)) as [|Hne]; [assumption|].
    exfalso. now apply (HP Hne). }
  split; [|split].
  - apply Hoff. intros Hp. destruct (Hon Hp) as (_ & -> & _). tauto.
  - apply Hoff. intros Hp. destruct (Hon Hp) as (_ & _ & -> & _). tauto.
  - apply Hoff. intros Hp. destruct (Hon Hp) as (_ & _ & _ & -> & _). lia.
Qed.

(** The plan reply of a submission installs a job whose status is outside
    [settled]. *)
Lemma created_job_target (w : World) (instruction job_id now : string) :
  pollTarget (state (handleSubmitInstruction_then instruction job_id now w))
  = if Js.truthy job_id then Some job_id else None.
Proof.
  unfold pollTarget; simpl. now destruct (Js.truthy job_id).
Qed.

Lemma created_job_active (w : World) (instruction job_id now : string) :
  activeId (state (handleSubmitInstruction_then instruction job_id now w))
  = (if Js.truthy job_id then Some job_id else None) /\
  isCompleted (state (handleSubmitInstruction_then instruction job_id now w))
  = false.
Proof. split; reflexivity. Qed.

(** The reset button, the form and the libraries, with and without a job
    id. *)
Lemma view_with_id (s : State) j :
  activeId s = Some j ->
  resetButton (view s) = true /\ form (view s) = None /\
  libraries (view s) = if isCompleted s then 1 else 0.
Proof.
  intros Hact. unfold view. cbn [resetButton form libraries]. rewrite Hact.
  rewrite bool_decide_eq_true_2 by discriminate.
  rewrite andb_false_r. repeat split.
Qed.

Lemma view_without_id (s : State) :
  activeId s = None ->
  resetButton (view s) = false /\ form (view s) = Some (isLoading s) /\
  libraries (view s)
  = (if showLibrary s then 1 else 0) + (if isCompleted s then 1 else 0).
Proof.
  intros Hact. unfold view. cbn [resetButton form libraries]. rewrite Hact.
  rewrite bool_decide_eq_false_2 by tauto.
  rewrite andb_true_r. repeat split.
Qed.

Lemma inv_target (w : World) j :
  polling_inv w -> pollTarget (state w) = Some j ->
  exists t, pollingRef w = Some t /\ timers w = {[ t := poller j ]}.
Proof. intros (_ & Ht & _) Hpt. rewrite Hpt in Ht. tauto. Qed.

(** From the form to the first poll. When the form is submitted with an
    instruction that is not blank, [App] sends the plan request with the
    trimmed instruction; when the server answers with a job id that is not
    empty, the job carries the trimmed instruction, the screen swaps the form
    for the reset button and shows the indicator with [pending], and exactly
    one interval is live, made for that job id: its tick asks for that job's
    status. *)
Theorem form_submission_starts_polling (w : World)
    (instruction job_id now : string) :
  reachable w ->
  ~ Js.blank instruction ->
  Js.truthy job_id = true ->
  exists w1 w2 t w3,
    Some (render (VideoRequestForm.handleSubmit handleSubmitInstruction
                    instruction w)) = Some w1 /\
    step w (EvSubmit (Js.trim instruction)) = Some w1 /\
    inflight w1 = GeneratePlan (Js.trim instruction) :: inflight w /\
    form (view (state w1)) = Some true /\
    step w1 (EvReply 0 (ROk (DJobId job_id)) now) = Some w2 /\
    Types.instruction <$> jobStatus (state w2) = Some (Js.trim instruction) /\
    Types.id <$> jobStatus (state w2) = Some job_id /\
    resetButton (view (state w2)) = true /\
    form (view (state w2)) = None /\
    (indicatorStatus <$> statusIndicator (view (state w2))) = Some "pending" /\
    libraries (view (state w2)) = 0 /\
    timers w2 = {[ t := poller job_id ]} /\
    step w2 (EvTick t) = Some w3 /\
    inflight w3 = GetStatus job_id :: inflight w.
Proof.
  intros Hreach Hnb Hid. pose proof (reachable_inv w Hreach) as Hinv.
  assert (VideoRequestForm.handleSubmit handleSubmitInstruction instruction w
          = handleSubmitInstruction (Js.trim instruction) w) as Hform.
  { unfold VideoRequestForm.handleSubmit.
    destruct (Js.truthy (Js.trim instruction)) eqn:Ht; [reflexivity|].
    apply truthy_trim in Ht. contradiction. }
  set (w1 := render (handleSubmitInstruction (Js.trim instruction) w)).
  assert (step w (EvSubmit (Js.trim instruction)) = Some w1) as Hs1
    by reflexivity.
  pose proof (step_inv w w1 _ Hinv Hs1) as Hinv1.
  set (w2 := render (handleSubmitInstruction_then (Js.trim instruction)
                       job_id now (answered 0 w1))).
  assert (step w1 (EvReply 0 (ROk (DJobId job_id)) now) = Some w2) as Hs2.
  { apply (step_reply w1 _ 0 (GeneratePlan (Js.trim instruction)));
      [|reflexivity].
    unfold w1. now rewrite render_inflight. }
  pose proof (step_inv w1 w2 _ Hinv1 Hs2) as Hinv2.
  assert (state w2 = state (handleSubmitInstruction_then
                              (Js.trim instruction) job_id now (answered 0 w1)))
    as Hst2 by apply render_state.
  assert (pollTarget (state w2) = Some job_id) as Hpt
    by (rewrite Hst2, created_job_target; now rewrite Hid).
  destruct (inv_target w2 job_id Hinv2 Hpt) as (t & Hpr & Hts).
  assert (inflight w2 = inflight w) as Hfl2.
  { unfold w2. rewrite render_inflight. simpl. unfold w1.
    now rewrite render_inflight. }
  destruct (created_job_active (answered 0 w1) (Js.trim instruction)
              job_id now) as (Hact & Hcomp).
  rewrite Hid, <- Hst2 in Hact. rewrite <- Hst2 in Hcomp.
  destruct (view_with_id (state w2) job_id Hact) as (Hvr & Hvf & Hvl).
  rewrite Hcomp in Hvl.
  assert (form (view (state w1)) = Some true) as Hf1.
  { assert (state w1 = state (handleSubmitInstruction (Js.trim instruction) w))
      as -> by apply render_state.
    now destruct (view_without_id
                    (state (handleSubmitInstruction (Js.trim instruction) w))
                    eq_refl) as (_ & -> & _). }
  exists w1, w2, t, (render (tick job_id w2)).
  split; [now rewrite Hform|]. split; [exact Hs1|].
  split; [unfold w1; now rewrite render_inflight|].
  split; [exact Hf1|].
  split; [exact Hs2|].
  split; [now rewrite Hst2|]. split; [now rewrite Hst2|].
  split; [exact Hvr|]. split; [exact Hvf|].
  split; [now rewrite Hst2|].
  split; [exact Hvl|].
  split; [exact Hts|].
  split.
  - unfold step; simpl. rewrite Hts, lookup_singleton_eq. reflexivity.
  - rewrite render_inflight. simpl. now rewrite Hfl2.
Qed.

(** An empty job id in the plan reply leaves the component without a way
    on: the job is stored and shown as [pending], but the empty id counts as
    no job, so no interval is armed, the reset button is not shown, and the
    form stays on the screen with the loading flag still on. *)
Theorem empty_job_id_starts_nothing (w : World)
    (instruction job_id now : string) :
  reachable w ->
  Js.truthy job_id = false ->
  exists w1 w2,
    step w (EvSubmit instruction) = Some w1 /\
    step w1 (EvReply 0 (ROk (DJobId job_id)) now) = Some w2 /\
    jobId (state w2) = Some job_id /\
    activeId (state w2) = None /\
    (indicatorStatus <$> statusIndicator (view (state w2))) = Some "pending" /\
    resetButton (view (state w2)) = false /\
    form (view (state w2)) = Some true /\
    libraries (view (state w2)) = 0 /\
    timers w2 = ∅ /\
    (forall t, step w2 (EvTick t) = None) /\
    (forall plan, step w2 (EvSave plan) = Some w2) /\
    step w2 EvExecute = Some w2 /\
    step w2 EvRegenerate = Some w2.
Proof.
  intros Hreach Hid. pose proof (reachable_inv w Hreach) as Hinv.
  set (w1 := render (handleSubmitInstruction instruction w)).
  assert (step w (EvSubmit instruction) = Some w1) as Hs1 by reflexivity.
  pose proof (step_inv w w1 _ Hinv Hs1) as Hinv1.
  set (w2 := render (handleSubmitInstruction_then instruction
                       job_id now (answered 0 w1))).
  assert (step w1 (EvReply 0 (ROk (DJobId job_id)) now) = Some w2) as Hs2.
  { apply (step_reply w1 _ 0 (GeneratePlan instruction)); [|reflexivity].
    unfold w1. now rewrite render_inflight. }
  pose proof (step_inv w1 w2 _ Hinv1 Hs2) as Hinv2.
  assert (state w2 = state (handleSubmitInstruction_then
                              instruction job_id now (answered 0 w1)))
    as Hst2 by apply render_state.
  assert (activeId (state w2) = None) as Hact.
  { rewrite Hst2.
    destruct (created_job_active (answered 0 w1) instruction job_id now)
      as (-> & _). now rewrite Hid. }
  assert (timers w2 = ∅) as Hts.
  { apply inv_guard_off; [exact Hinv2|].
    rewrite Hst2, created_job_target. now rewrite Hid. }
  assert (render w2 = w2) as Hr
    by (apply render_noop; now destruct Hinv2 as (Hd & _)).
  destruct (view_without_id (state w2) Hact) as (Hvr & Hvf & Hvl).
  assert (isLoading (state w2) = true /\ showLibrary (state w2) = false
          /\ isCompleted (state w2) = false) as (Hld & Hsl & Hcomp).
  { rewrite Hst2. unfold w1. simpl. rewrite render_state. repeat split. }
  rewrite Hld in Hvf. rewrite Hsl, Hcomp in Hvl.
  exists w1, w2. split; [exact Hs1|]. split; [exact Hs2|].
  split; [now rewrite Hst2|]. split; [exact Hact|].
  split; [now rewrite Hst2|].
  split; [exact Hvr|]. split; [exact Hvf|]. split; [exact Hvl|].
  split; [exact Hts|].
  split; [intros t; unfold step; simpl; now rewrite Hts, lookup_empty|].
  unfold step, handle.
  unfold handleSaveTaskPlan, handleExecute, handleRegenerate. rewrite Hact.
  cbn [fmap option_fmap option_map]. rewrite Hr. repeat split.
Qed.

Lemma activeId_jobId (s : State) j :
  activeId s = Some j -> jobId s = Some j /\ Js.truthy j = true.
Proof.
  unfold activeId. destruct (jobId s) as [j0|]; [|discriminate].
  destruct (Js.truthy j0) eqn:Ht; [|discriminate].
  intros H; injection H as <-. auto.
Qed.

(** A status reply outside [settled], with a job id present, in every
    reachable state: the reply's data becomes the job, the loading flag
    stays, and afterwards exactly one interval is live, for the current job
    id whatever job the request was sent for. The interval is the old one,
    untouched, when the status is the one the job already had; when the
    status differs, the effect runs again and a new interval takes its
    place. *)
Theorem unsettled_reply_keeps_polling (w : World) (i : nat) (j j0 : string)
    (data : JobStatus) (now : string) :
  reachable w ->
  inflight w !! i = Some (GetStatus j) ->
  activeId (state w) = Some j0 ->
  Js.includes settled (Types.status data) = false ->
  exists w' t,
    step w (EvReply i (ROk (DStatus data)) now) = Some w' /\
    jobStatus (state w') = Some data /\
    jobId (state w') = Some j0 /\
    isLoading (state w') = isLoading (state w) /\
    timers w' = {[ t := poller j0 ]} /\
    pollingRef w' = Some t /\
    (Types.status <$> jobStatus (state w) = Some (Types.status data) ->
     timers w' = timers w /\ pollingRef w' = pollingRef w /\
     nextTimer w' = nextTimer w) /\
    (Types.status <$> jobStatus (state w) <> Some (Types.status data) ->
     t = nextTimer w /\ nextTimer w' = Pos.succ (nextTimer w)).
Proof.
  intros Hreach Hi Hact Hs. pose proof (reachable_inv w Hreach) as Hinv.
  destruct (activeId_jobId _ _ Hact) as (Hj0 & Ht0).
  set (w1 := upd (setJobStatus (Some data)) (answered i w)).
  assert (resume (GetStatus j) (ROk (DStatus data)) now (answered i w)
          = Some w1) as Hres.
  { simpl. unfold tick_then. now rewrite Hs. }
  pose proof (step_reply w w1 i _ _ now Hi Hres) as Hstep.
  pose proof (step_inv w _ _ Hinv Hstep) as Hinv'.
  assert (pollTarget (state w1) = Some j0) as Hpt1.
  { apply pollTarget_Some. simpl. rewrite Hj0. eauto 6. }
  assert (pollTarget (state (render w1)) = Some j0) as Hpt
    by now rewrite render_state.
  destruct (inv_target _ j0 Hinv' Hpt) as (t & Hpr & Hts).
  exists (render w1), t. split; [exact Hstep|].
  rewrite render_state.
  split; [reflexivity|]. split; [exact Hj0|]. split; [reflexivity|].
  split; [exact Hts|]. split; [exact Hpr|].
  assert (deps (state w1) = (jobId (state w), Some (Types.status data)))
    as Hd1 by reflexivity.
  assert (effectDeps w1 = deps (state w)) as He1
    by (destruct Hinv as (Hd & _); exact Hd).
  split.
  - intros Hsame.
    assert (render w1 = w1) as Hr.
    { apply render_noop. rewrite He1, Hd1. unfold deps. now rewrite Hsame. }
    rewrite Hr. repeat split.
  - intros Hdiff.
    assert (deps (state w1) <> effectDeps w1) as Hne.
    { rewrite He1, Hd1. unfold deps. intros Heq. apply Hdiff.
      now injection Heq as <-. }
    assert (render w1 = runEffect (runCleanup w1)) as Hr.
    { unfold render. now rewrite decide_False. }
    assert (state (runCleanup w1) = state w1 /\
            nextTimer (runCleanup w1) = nextTimer w) as (Hcs & Hcn).
    { unfold runCleanup, clearPolling.
      destruct (effectCleanup w1); [destruct (pollingRef w1)|]; split;
        reflexivity. }
    rewrite Hr in Hpr |- *. unfold runEffect in Hpr |- *.
    rewrite Hcs, Hpt1 in Hpr |- *. simpl in Hpr |- *.
    rewrite Hcn in Hpr |- *. split; [congruence | reflexivity].
Qed.

(** Execute or regenerate, followed through to the end. With a job present:
    the call and its accepted reply put the job in [recording] with the
    loading flag on and arm one interval for the job id; its tick asks for
    that job's status; a reply with a status in [settled] becomes the job,
    turns the loading flag off and stops the polling, with no request left
    over. When that status is [completed] and the reply has a video url, the
    player is on the screen with that url. *)
Theorem action_polls_until_settled (w : World) (ev : @Event TaskPlan Results)
    (j : string) (js data : JobStatus) (n1 n2 : string) :
  reachable w ->
  ev = EvExecute \/ ev = EvRegenerate ->
  activeId (state w) = Some j ->
  jobStatus (state w) = Some js ->
  Js.includes settled (Types.status data) = true ->
  exists w1 w2 t w3 w4,
    step w ev = Some w1 /\
    step w1 (EvReply 0 (ROk DOther) n1) = Some w2 /\
    Types.status <$> jobStatus (state w2) = Some "recording" /\
    isLoading (state w2) = true /\
    timers w2 = {[ t := poller j ]} /\
    step w2 (EvTick t) = Some w3 /\
    inflight w3 = GetStatus j :: inflight w /\
    step w3 (EvReply 0 (ROk (DStatus data)) n2) = Some w4 /\
    jobStatus (state w4) = Some data /\
    jobId (state w4) = Some j /\
    isLoading (state w4) = false /\
    timers w4 = ∅ /\
    (forall t', step w4 (EvTick t') = None) /\
    inflight w4 = inflight w /\
    (Types.status data = "completed" ->
     forall u, Types.video_url data = Some u -> Js.truthy u = true ->
     exists p, videoPlayer (view (state w4)) = Some p /\ videoUrl p = u).
Proof.
  intros Hreach Hev Hact Hjs Hset.
  pose proof (reachable_inv w Hreach) as Hinv.
  destruct (activeId_jobId _ _ Hact) as (Hj & Htj).
  assert (exists (r : Request) (f : JobStatus -> JobStatus),
             handle w ev
             = Some (send r (upd (setError None) (upd (setIsLoading true) w)))
             /\ resume r (ROk DOther) n1
                  (answered 0 (render (send r (upd (setError None)
                                                 (upd (setIsLoading true) w)))))
                = Some (upd (setJobStatusWith (fmap f))
                          (answered 0 (render (send r (upd (setError None)
                                          (upd (setIsLoading true) w))))))
             /\ Types.status (f js) = "recording")
    as (r & f & Hh & Hres & Hrec).
  { destruct Hev as [-> | ->]; simpl.
    - exists (PostExecute j), withRecording.
      unfold handleExecute. rewrite Hact. repeat split.
    - exists (PostRegenerate j), withRegenerating.
      unfold handleRegenerate. rewrite Hact. repeat split. }
  set (v1 := send r (upd (setError None) (upd (setIsLoading true) w))) in *.
  set (w1 := render v1).
  assert (step w ev = Some w1) as Hs1 by (unfold step; now rewrite Hh).
  pose proof (step_inv w w1 _ Hinv Hs1) as Hinv1.
  set (w2 := render (upd (setJobStatusWith (fmap f)) (answered 0 w1))).
  assert (step w1 (EvReply 0 (ROk DOther) n1) = Some w2) as Hs2.
  { apply (step_reply w1 _ 0 r); [|exact Hres].
    unfold w1. now rewrite render_inflight. }
  pose proof (step_inv w1 w2 _ Hinv1 Hs2) as Hinv2.
  assert (state w2 = setJobStatus (Some (f js))
                       (setError None (setIsLoading true (state w)))) as Hst2.
  { unfold w2. rewrite render_state. simpl. unfold w1. rewrite render_state.
    unfold setJobStatusWith; simpl. now rewrite Hjs. }
  assert (inflight w2 = inflight w) as Hfl2.
  { unfold w2. rewrite render_inflight. simpl. unfold w1.
    now rewrite render_inflight. }
  assert (pollTarget (state w2) = Some j) as Hpt2.
  { apply pollTarget_Some. rewrite Hst2. simpl.
    split; [exact Hj|]. split; [exact Htj|].
    exists (f js). split; [reflexivity | now rewrite Hrec]. }
  destruct (inv_target w2 j Hinv2 Hpt2) as (t & Hpr2 & Hts2).
  set (w3 := render (tick j w2)).
  assert (step w2 (EvTick t) = Some w3) as Hs3.
  { unfold step; simpl. now rewrite Hts2, lookup_singleton_eq. }
  pose proof (step_inv w2 w3 _ Hinv2 Hs3) as Hinv3.
  set (w4 := render (tick_then data (answered 0 w3))).
  assert (step w3 (EvReply 0 (ROk (DStatus data)) n2) = Some w4) as Hs4.
  { apply (step_reply w3 _ 0 (GetStatus j)); [|reflexivity].
    unfold w3. now rewrite render_inflight. }
  pose proof (step_inv w3 w4 _ Hinv3 Hs4) as Hinv4.
  assert (state w4 = setIsLoading false (setJobStatus (Some data) (state w2)))
    as Hst4.
  { unfold w4. rewrite render_state. unfold tick_then. rewrite Hset.
    rewrite clearPolling_state. simpl. unfold w3. now rewrite render_state. }
  assert (timers w4 = ∅) as Hts4.
  { apply inv_guard_off; [exact Hinv4|]. rewrite Hst4.
    apply (pollTarget_settled (setIsLoading false (state w2)) data Hset). }
  exists w1, w2, t, w3, w4.
  split; [exact Hs1|]. split; [exact Hs2|].
  split; [rewrite Hst2; simpl; now rewrite Hrec|].
  split; [now rewrite Hst2|]. split; [exact Hts2|]. split; [exact Hs3|].
  split; [unfold w3; rewrite render_inflight; simpl; now rewrite Hfl2|].
  split; [exact Hs4|].
  split; [now rewrite Hst4|].
  split; [rewrite Hst4, Hst2; exact Hj|].
  split; [now rewrite Hst4|]. split; [exact Hts4|].
  split; [intros t'; unfold step; simpl; now rewrite Hts4, lookup_empty|].
  split.
  - unfold w4. rewrite render_inflight. unfold tick_then. rewrite Hset.
    unfold clearPolling; simpl.
    assert (inflight w3 = GetStatus j :: inflight w) as Hfl3
      by (unfold w3; rewrite render_inflight; simpl; now rewrite Hfl2).
    destruct (pollingRef w3); simpl; now rewrite Hfl3.
  - intros Hc u Hu Htu. rewrite Hst4. unfold view. cbn [videoPlayer].
    unfold isCompleted. simpl. rewrite Hc, Hu. simpl. rewrite Htu.
    eexists. split; reflexivity.
Qed.

End EngineScreens.

(** ** The request form: padding, the button and the examples *)
Section FormMore.

Import Js VideoRequestForm.

Lemma blank_app a b : blank (a +:+ b) <-> blank a /\ blank b.
Proof.
  induction a as [|c a IH].
  - rewrite append_nil_l. split; [intros H; split; [apply blank_nil | exact H] | tauto].
  - rewrite append_cons, !blank_cons, IH. tauto.
Qed.

Lemma trimStart_app_blank pre x : blank pre -> trimStart (pre +:+ x) = trimStart x.
Proof.
  induction pre as [|c pre IH]; intros Hb; [reflexivity|].
  apply blank_cons in Hb as [Hc Hb]. rewrite append_cons. simpl.
  rewrite Hc. now apply IH.
Qed.

Lemma trimEnd_app_blank x post : blank post -> trimEnd (x +:+ post) = trimEnd x.
Proof.
  intros Hb. induction x as [|c x IH].
  - rewrite append_nil_l. now apply trimEnd_empty.
  - rewrite append_cons. simpl. now rewrite IH.
Qed.

Lemma trimStart_app_not_blank x post :
  ~ blank x -> trimStart (x +:+ post) = trimStart x +:+ post.
Proof.
  induction x as [|c x IH]; intros Hnb.
  - exfalso. apply Hnb, blank_nil.
  - rewrite append_cons. simpl. destruct (isWhiteSpace c) eqn:Hc.
    + apply IH. intros Hb. apply Hnb. now apply blank_cons.
    + now rewrite append_cons.
Qed.

Lemma trim_padded pre x post :
  blank pre -> blank post -> trim (pre +:+ x +:+ post) = trim x.
Proof.
  intros Hpre Hpost. unfold trim. rewrite (trimStart_app_blank pre) by exact Hpre.
  destruct (blank_dec x) as [Hx|Hx].
  - assert (blank (x +:+ post)) as Hxp by now apply blank_app.
    apply trimStart_blank, trimEnd_empty in Hxp. rewrite Hxp.
    symmetry. now apply trimEnd_empty, trimStart_blank.
  - rewrite trimStart_app_not_blank by exact Hx.
    now apply trimEnd_app_blank.
Qed.

Lemma invocations_trim s :
  invocations s = if truthy (trim s) then [trim s] else [].
Proof. unfold invocations, handleSubmit. now destruct (truthy (trim s)). Qed.

(** White space around the instruction never changes what is submitted:
    with any blank text before and after it the form calls [onSubmit] with
    the same argument, or not at all, as without; submitting what was
    submitted submits it again unchanged. *)
Theorem submit_ignores_outer_white_space (instruction : string) :
  (forall pre post, blank pre -> blank post ->
     trim (pre +:+ instruction +:+ post) = trim instruction /\
     invocations (pre +:+ instruction +:+ post) = invocations instruction) /\
  trim (trim instruction) = trim instruction /\
  invocations (trim instruction) = invocations instruction.
Proof.
  assert (trim (trim instruction) = trim instruction) as Hidem.
  { destruct (trim_split instruction) as (pre & post & Hs & Hpre & Hpost).
    rewrite Hs at 2. symmetry. now apply trim_padded. }
  split; [|split; [exact Hidem|]].
  - intros pre post Hpre Hpost.
    pose proof (trim_padded pre instruction post Hpre Hpost) as Ht.
    split; [exact Ht|]. now rewrite !invocations_trim, Ht.
  - now rewrite !invocations_trim, Hidem.
Qed.

(** The button and the handler agree. Whenever the submit button is enabled,
    nothing is loading and a submission calls [onSubmit] exactly once, with
    the trimmed instruction; while loading the button is disabled whatever
    the text; and every example, once clicked, enables the button and is
    submitted exactly as it is written. *)
Theorem enabled_button_submits (isLoading : bool) (instruction : string) :
  (submitDisabled isLoading instruction = false ->
   isLoading = false /\ ~ blank instruction /\
   invocations instruction = [trim instruction]) /\
  submitDisabled true instruction = true /\
  (submitDisabled false instruction = true -> invocations instruction = []) /\
  Forall (fun ex =>
            submitDisabled false (clickExample ex instruction) = false /\
            invocations (clickExample ex instruction) = [ex]) examples.
Proof.
  split; [|split; [|split]].
  - unfold submitDisabled. intros H. apply orb_false_iff in H as [-> Ht].
    apply negb_false_iff in Ht. rewrite invocations_trim, Ht.
    split; [reflexivity|]. split; [|reflexivity].
    intros Hb. apply truthy_trim in Hb. congruence.
  - reflexivity.
  - unfold submitDisabled. simpl. intros Ht. apply negb_true_iff in Ht.
    now rewrite invocations_trim, Ht.
  - unfold examples, clickExample. repeat constructor.
Qed.

Lemma substring_prefix (n : nat) (s : string) :
  exists rest,
    s = String.substring 0 n s +:+ rest /\
    String.length (String.substring 0 n s) = Nat.min n (String.length s) /\
    (String.length s <= n -> rest = EmptyString).
Proof.
  revert n. induction s as [|c s IH]; intros [|n]; simpl.
  - exists EmptyString. repeat split.
  - exists EmptyString. repeat split.
  - exists (String c s). repeat split. intros H. inversion H.
  - destruct (IH n) as (rest & Hs & Hl & Hr). exists rest.
    split; [rewrite append_cons; now f_equal|]. split; [now rewrite Hl|].
    intros H. apply Hr. lia.
Qed.

Lemma append_empty_r (s : string) : s +:+ EmptyString = s.
Proof. induction s as [|c s IH]; [reflexivity|]. rewrite append_cons. now f_equal. Qed.

(** The label of an example button is the start of the example, forty code
    units at most, followed by three dots: the whole example and the dots
    when it has no more than forty code units, its first forty and the dots
    otherwise. *)
Theorem exampleLabel_is_prefix_with_dots (ex : string) :
  exists head rest,
    exampleLabel ex = head +:+ "..." /\
    ex = head +:+ rest /\
    String.length head = Nat.min 40 (String.length ex) /\
    (String.length ex <= 40 -> exampleLabel ex = ex +:+ "...") /\
    (40 < String.length ex -> String.length head = 40 /\ rest <> EmptyString).
Proof.
  unfold exampleLabel, Js.substring.
  rewrite Nat.min_0_l, Nat.min_0_l, Nat.max_0_l, Nat.sub_0_r.
  set (n := Nat.min 40 (String.length ex)).
  destruct (substring_prefix n ex) as (rest & Hs & Hl & Hr).
  exists (String.substring 0 n ex), rest.
  split; [reflexivity|]. split; [exact Hs|].
  assert (Nat.min n (String.length ex) = n) as Hn by (unfold n; lia).
  split; [now rewrite Hl, Hn|]. split.
  - intros Hle. assert (n = String.length ex) as Hlen by (unfold n; lia).
    rewrite (Hr ltac:(lia)) in Hs. rewrite append_empty_r in Hs.
    now rewrite <- Hs.
  - intros Hlt. assert (n = 40) as Hlen by (unfold n; lia).
    split; [rewrite Hl; lia|]. intros ->.
    rewrite append_empty_r in Hs.
    apply (f_equal String.length) in Hs. rewrite Hl in Hs. lia.
Qed.

End FormMore.

(** ** More of the properties on the example runs *)
Section LibraryRuns.

Import TutorialLibrary LibraryScenario.

(** The list request of the mount, answered either way. *)
Lemma fetchTutorials_replaces_or_keeps_witness :
  inflight mounted !! 0 = Some GetTutorials /\
  (exists w',
      step mounted (EvReply 0 (ROk (DTutorials three))) = Some w' /\
      tutorials (state w') = three /\
      loading (state w') = false) /\
  (exists w' msg,
      step mounted (EvReply 0 (RErr None)) = Some w' /\
      view (state w') = ErrorState msg /\
      msg = "Failed to load tutorials").
Proof.
  split; [reflexivity|].
  destruct (fetchTutorials_replaces_or_keeps mounted 0 eq_refl)
    as (Hok & Herr & _).
  split.
  - destruct (Hok three) as (w' & Hs & Ht & _ & Hl & _). eauto.
  - destruct (Herr None)
      as (w' & msg & Hs & _ & _ & _ & _ & Hm & _ & Hv & _).
    exists w', msg. auto.
Defined.

(** The run [browsing]: nothing loads, one delete is outstanding, and it
    names an entry of the collection. *)
Lemma spinner_iff_list_request_outstanding_witness :
  run mounted browsing = Some (after browsing) /\
  inflight (after browsing)
  = [DeleteTutorial "2" (state (after [EvReply 0 (ROk (DTutorials three));
                                       EvTogglePlay "2"]))] /\
  length (listRequests (after browsing)) <= 1 /\
  (view (state (after browsing)) = Spinner <->
   listRequests (after browsing) <> []).
Proof.
  split; [vm_compute; reflexivity|].
  split; [vm_compute; reflexivity|].
  refine (let H := spinner_iff_list_request_outstanding (after browsing) _ in
          conj (proj1 H) (proj1 (proj2 H))).
  exists browsing. vm_compute. reflexivity.
Defined.

(** On the run [expanding] the second card is expanded while the first one
    plays: a click on the second header collapses it and stops the first
    one's video; a click on the third header expands the third and leaves
    the video. *)
Lemma toggleExpand_collapse_stops_playback_witness :
  (expandedId (state (after expanding)) = Some "2" /\
   playingId (state (after expanding)) = Some "1") /\
  (expandedId (state (toggleExpand "2" (after expanding))) = None /\
   playingId (state (toggleExpand "2" (after expanding))) = None) /\
  (expandedId (state (toggleExpand "3" (after expanding))) = Some "3" /\
   playingId (state (toggleExpand "3" (after expanding))) = Some "1").
Proof.
  assert (expandedId (state (after expanding)) = Some "2") as He
    by (vm_compute; reflexivity).
  assert (playingId (state (after expanding)) = Some "1") as Hp
    by (vm_compute; reflexivity).
  split; [split; assumption|]. split.
  - exact (proj1 (toggleExpand_collapse_stops_playback (after expanding) "2") He).
  - destruct (proj1 (proj2 (toggleExpand_collapse_stops_playback
                              (after expanding) "3"))) as (H3 & Hp3).
    + rewrite He. discriminate.
    + split; [exact H3 | now rewrite Hp3].
Defined.

(** On the run [expanding] the first card plays: closing it and playing it
    again gives the same component back, and playing the third card replaces
    the first. *)
Lemma togglePlay_then_close_restores_witness :
  playingId (state (after expanding)) = Some "1" /\
  togglePlay "1" (togglePlay "1" (after expanding)) = after expanding /\
  playingId (state (togglePlay "3" (after expanding))) = Some "3".
Proof.
  assert (playingId (state (after expanding)) = Some "1") as Hp
    by (vm_compute; reflexivity).
  split; [exact Hp|].
  destruct (togglePlay_then_close_restores (after expanding) "1")
    as (_ & _ & _ & Hback & _).
  destruct (togglePlay_then_close_restores (after expanding) "3")
    as (_ & Hother & _).
  split; [apply Hback; now left|].
  apply Hother. rewrite Hp. discriminate.
Defined.

(** The grid of the run [expanding]: the ids are distinct. *)
Lemma grid_shows_one_video_at_most_witness :
  NoDup (map id (tutorials (state (after expanding)))) /\
  length (List.filter cardVideo
            (map (card (state (after expanding)))
               (tutorials (state (after expanding))))) <= 1 /\
  length (List.filter cardExpanded
            (map (card (state (after expanding)))
               (tutorials (state (after expanding))))) <= 1.
Proof.
  assert (NoDup (map id (tutorials (state (after expanding))))) as Hnd.
  { change (NoDup ["1"; "2"; "3"]).
    apply (bool_decide_unpack _). vm_compute. exact I. }
  split; [exact Hnd|].
  destruct (proj2 (proj2 (grid_shows_one_video_at_most (state (after expanding))))
              Hnd) as (Hv & He & _).
  split; [exact Hv | exact He].
Defined.

(** After the list of the run [expanding] no entry has the id [9]. *)
Lemma deletes_commute_and_repeat_witness :
  (forall t, In t (tutorials (state (after expanding))) -> id t <> "9") /\
  exists w',
    deleted "9" (ROk DAck) (after expanding) = Some w' /\
    tutorials (state w') = tutorials (state (after expanding)).
Proof.
  assert (forall t, In t (tutorials (state (after expanding))) -> id t <> "9")
    as Habsent.
  { change (forall t, In t three -> id t <> "9").
    intros t [<-|[<-|[<-|[]]]]; discriminate. }
  split; [exact Habsent|].
  destruct (proj2 (proj2 (deletes_commute_and_repeat (after expanding)
                            "9" "9" DAck DAck)) Habsent)
    as (w' & Hd & Ht & _).
  exists w'. split; [exact Hd | exact Ht].
Defined.

(** C8. Two deletes that overlap. On a run the screen offers (the list of
    three arrives, the deletes of entries 1 and 2 are clicked and confirmed,
    the server accepts both), the reply to the first delete leaves entries 2
    and 3, and the reply to the second one writes the list its handler was
    created with, without entry 2: entries 1 and 3. The accepted delete of
    entry 2 does not remove exactly that entry from the collection of the
    moment (that would leave entry 3 alone): it removes it and brings back
    entry 1, whose delete the server had accepted before; no request is left
    and no alert was shown. *)
Theorem overlapping_deletes_bring_back_deleted_entry :
  run mounted two_deletes_answered = Some (after two_deletes_answered) /\
  run mounted two_deletes_one_answered = Some (after two_deletes_one_answered) /\
  map id (tutorials (state (after two_deletes_one_answered))) = ["2"; "3"] /\
  inflight (after two_deletes_one_answered)
  = [DeleteTutorial "2" (state (after [EvReply 0 (ROk (DTutorials three))]))] /\
  step (after two_deletes_one_answered) (EvReply 0 (ROk DAck))
  = Some (after two_deletes_answered) /\
  map id (tutorials (state (after two_deletes_answered))) = ["1"; "3"] /\
  map id (List.filter (keeps "2")
            (tutorials (state (after two_deletes_one_answered)))) = ["3"] /\
  (exists t, id t = "1" /\
             In t (tutorials (state (after two_deletes_answered))) /\
             ~ In t (tutorials (state (after two_deletes_one_answered)))) /\
  inflight (after two_deletes_answered) = [] /\
  alerts (after two_deletes_answered) = [].
Proof.
  split; [vm_compute; reflexivity|]. split; [vm_compute; reflexivity|].
  split; [vm_compute; reflexivity|]. split; [vm_compute; reflexivity|].
  split; [vm_compute; reflexivity|].
  split; [vm_compute; reflexivity|]. split; [vm_compute; reflexivity|].
  split; [|split; vm_compute; reflexivity].
  assert (tutorials (state (after two_deletes_answered))
          = [entry "1" "Open Notepad"; entry "3" "Open Paint"]) as ->
    by (vm_compute; reflexivity).
  assert (tutorials (state (after two_deletes_one_answered))
          = [entry "2" "Open Chrome"; entry "3" "Open Paint"]) as ->
    by (vm_compute; reflexivity).
  exists (entry "1" "Open Notepad").
  split; [reflexivity|]. split; [now left|].
  intros [H|[H|[]]]; apply (f_equal id) in H; discriminate H.
Qed.

(** C9. A selection made while the delete is outstanding. On a run the
    screen offers (the list of three arrives, the delete of entry 2 is
    clicked and confirmed, entry 2 is expanded and played, the server
    accepts the delete), the reply removes entry 2 from the collection and
    clears neither selection: the handler compares the deleted id with the
    selections of the render it was created in, which were empty. Both
    selections refer to the removed id afterwards. *)
Theorem delete_reply_leaves_dangling_selection :
  run mounted selected_and_deleted = Some (after selected_and_deleted) /\
  run mounted selected_while_deleting = Some (after selected_while_deleting) /\
  expandedId (state (after selected_while_deleting)) = Some "2" /\
  playingId (state (after selected_while_deleting)) = Some "2" /\
  step (after selected_while_deleting) (EvReply 0 (ROk DAck))
  = Some (after selected_and_deleted) /\
  map id (tutorials (state (after selected_and_deleted))) = ["1"; "3"] /\
  expandedId (state (after selected_and_deleted)) = Some "2" /\
  playingId (state (after selected_and_deleted)) = Some "2" /\
  (forall t, In t (tutorials (state (after selected_and_deleted))) ->
             id t <> "2") /\
  alerts (after selected_and_deleted) = [].
Proof.
  do 8 (split; [vm_compute; reflexivity|]).
  split; [|vm_compute; reflexivity].
  assert (tutorials (state (after selected_and_deleted))
          = [entry "1" "Open Notepad"; entry "3" "Open Paint"]) as ->
    by (vm_compute; reflexivity).
  intros t [<-|[<-|[]]]; discriminate.
Qed.

End LibraryRuns.

Section FormRuns.

Import Js VideoRequestForm.

(** An instruction padded with blanks and a line break. *)
Lemma submit_ignores_outer_white_space_witness :
  blank "  " /\ blank (String "010"%char " ") /\
  invocations ("  " +:+ "Open Chrome" +:+ String "010"%char " ")
  = invocations "Open Chrome".
Proof.
  assert (blank "  ") as Hpre by (apply truthy_trim; reflexivity).
  assert (blank (String "010"%char " ")) as Hpost
    by (apply truthy_trim; reflexivity).
  split; [exact Hpre|]. split; [exact Hpost|].
  exact (proj2 (proj1 (submit_ignores_outer_white_space "Open Chrome")
                  "  " (String "010"%char " ") Hpre Hpost)).
Defined.

(** The button is enabled for a padded instruction while nothing loads. *)
Lemma enabled_button_submits_witness :
  submitDisabled false " Open Chrome " = false /\
  invocations " Open Chrome " = ["Open Chrome"].
Proof.
  assert (submitDisabled false " Open Chrome " = false) as He
    by (vm_compute; reflexivity).
  split; [exact He|].
  destruct (proj1 (enabled_button_submits false " Open Chrome ") He)
    as (_ & _ & Hi).
  rewrite Hi. vm_compute. reflexivity.
Defined.

(** The first example has more than forty code units, the third one
    fewer. *)
Lemma exampleLabel_is_prefix_with_dots_witness :
  40 < String.length
         "Create a C# console application in Visual Studio that prints Hello World" /\
  String.length "Open Chrome and go to google.com" <= 40 /\
  (exists head rest,
      exampleLabel
        "Create a C# console application in Visual Studio that prints Hello World"
      = head +:+ "..." /\
      "Create a C# console application in Visual Studio that prints Hello World"
      = head +:+ rest /\
      String.length head = 40 /\ rest <> EmptyString) /\
  exampleLabel "Open Chrome and go to google.com"
  = "Open Chrome and go to google.com" +:+ "...".
Proof.
  assert (40 < String.length
            "Create a C# console application in Visual Studio that prints Hello World")
    as Hlong by (vm_compute; lia).
  assert (String.length "Open Chrome and go to google.com" <= 40) as Hshort
    by (vm_compute; lia).
  split; [exact Hlong|]. split; [exact Hshort|]. split.
  - destruct (exampleLabel_is_prefix_with_dots
                "Create a C# console application in Visual Studio that prints Hello World")
      as (head & rest & Hl & Hs & _ & _ & H40).
    exists head, rest. destruct (H40 Hlong) as (Hh & Hr). auto.
  - destruct (exampleLabel_is_prefix_with_dots
                "Open Chrome and go to google.com")
      as (head & rest & _ & _ & _ & Hwhole & _).
    exact (Hwhole Hshort).
Defined.

End FormRuns.

Section EngineRuns.

Import App Scenario.

Ltac run_it := vm_compute; reflexivity.
Ltac reached es := exists es; vm_compute; reflexivity.

(** On the run [polled] the outstanding status request names the created
    job. *)
Lemma requests_name_created_jobs_witness :
  inflight (after polled) = [GetStatus "abc"] /\
  created (log (after polled)) = ["abc"] /\
  addressed (log (after polled)) /\
  (forall r j, In r (inflight (after polled)) -> jobOf r = Some j ->
               In j (created (log (after polled)))).
Proof.
  split; [run_it|]. split; [run_it|].
  refine (let H := requests_name_created_jobs (after polled) _ in
          conj (proj1 H) (proj1 (proj2 (proj2 H)))).
  reached polled.
Defined.

(** On the run [saving]: the reply to the save, success or failure. *)
Lemma save_leaves_polling_alone_witness :
  inflight (after saving) !! 0
  = Some (PutTaskPlan "abc" ["Open Notepad"; "Type Hello"; "Save as hello.txt"]) /\
  (forall reply, exists w',
      step (after saving) (EvReply 0 reply "t2") = Some w' /\
      timers w' = timers (after saving) /\
      isLoading (state w') = isLoading (state (after saving))).
Proof.
  assert (reachable (after saving)) as Hr by reached saving.
  assert (inflight (after saving) !! 0
          = Some (PutTaskPlan "abc"
                    ["Open Notepad"; "Type Hello"; "Save as hello.txt"]))
    as Hi by run_it.
  split; [exact Hi|].
  intros reply.
  destruct (proj1 (save_leaves_polling_alone (after saving) 0 "abc"
                     ["Open Notepad"; "Type Hello"; "Save as hello.txt"] "t2"
                     Hr Hi) reply)
    as (w' & Hs & Ht & _ & Hl & _).
  exists w'. auto.
Defined.

(** On the run [planned]: execute is called. *)
Lemma execute_call_marks_loading_witness :
  activeId (state (after planned)) = Some "abc" /\
  exists w',
    step (after planned) EvExecute = Some w' /\
    inflight w' = PostExecute "abc" :: inflight (after planned) /\
    isLoading (state w') = true.
Proof.
  assert (reachable (after planned)) as Hr by reached planned.
  assert (activeId (state (after planned)) = Some "abc") as Ha by run_it.
  split; [exact Ha|].
  destruct (proj1 (execute_call_marks_loading (after planned) "abc" Hr Ha))
    as (w' & Hs & Hi & Hl & _).
  exists w'. split; [exact Hs|]. split; [exact Hi | exact Hl].
Defined.

(** On the run [executing]: the execute request fails with a message of the
    server. *)
Lemma failed_execute_keeps_job_shows_banner_witness :
  inflight (after executing) !! 0 = Some (PostExecute "abc") /\
  exists w',
    step (after executing) (EvReply 0 (RErr (Some "busy")) "t2") = Some w' /\
    jobStatus (state w') = jobStatus (state (after executing)) /\
    isLoading (state w') = false /\
    errorBanner (view (state w')) = Some "busy".
Proof.
  assert (reachable (after executing)) as Hr by reached executing.
  assert (inflight (after executing) !! 0 = Some (PostExecute "abc"))
    as Hi by run_it.
  split; [exact Hi|].
  destruct (failed_execute_keeps_job_shows_banner (after executing) 0
              (PostExecute "abc") (Some "busy") "t2" Hr Hi)
    as (w' & msg & Hs & Hjs & _ & Hl & Hb & _ & Hm & _).
  - exists "abc". now left.
  - exists w'. rewrite (Hm "busy" eq_refl eq_refl) in Hb.
    split; [exact Hs|]. split; [exact Hjs|]. split; [exact Hl | exact Hb].
Defined.

(** On the run [reset_in_flight] there is no job id. *)
Lemma no_job_id_no_action_witness :
  activeId (state (after reset_in_flight)) = None /\
  step (after reset_in_flight) EvExecute = Some (after reset_in_flight) /\
  timers (after reset_in_flight) = ∅.
Proof.
  assert (reachable (after reset_in_flight)) as Hr by reached reset_in_flight.
  assert (activeId (state (after reset_in_flight)) = None) as Ha by run_it.
  split; [exact Ha|].
  destruct (no_job_id_no_action (after reset_in_flight) Hr Ha)
    as (_ & He & _ & Ht & _).
  split; [exact He | exact Ht].
Defined.

(** A reset after the run [polled]. *)
Lemma reset_restores_first_screen_witness :
  exists w',
    step (after polled) EvReset = Some w' /\
    state w' = state mounted /\
    inflight w' = inflight (after polled).
Proof.
  assert (reachable (after polled)) as Hr by reached polled.
  destruct (reset_restores_first_screen (after polled) Hr)
    as (w' & Hs & Hst & _ & _ & _ & Hi & _).
  exists w'. split; [exact Hs|]. split; [exact Hst | exact Hi].
Defined.

(** On the run [started] the job is polled. *)
Lemma polled_job_owns_the_screen_witness :
  polling (after started) /\
  resetButton (view (state (after started))) = true /\
  form (view (state (after started))) = None /\
  videoPlayer (view (state (after started))) = None /\
  libraries (view (state (after started))) = 0.
Proof.
  assert (reachable (after started)) as Hr by reached started.
  assert (polling (after started)) as Hp by (vm_compute; discriminate).
  split; [exact Hp|].
  destruct (proj1 (polled_job_owns_the_screen (after started) Hr) Hp)
    as (Hb & Hf & Hv & Hl & _).
  auto.
Defined.

(** The form is submitted with a padded instruction on the mounted
    component, and the server creates job [xyz]. *)
Lemma form_submission_starts_polling_witness :
  exists w1 w2 t : _,
    step (mounted : World) (EvSubmit (Js.trim "  Open Chrome ")) = Some w1 /\
    step w1 (EvReply 0 (ROk (DJobId "xyz")) "t0") = Some w2 /\
    Types.instruction <$> jobStatus (state w2)
    = Some (Js.trim "  Open Chrome ") /\
    timers w2 = {[ t := poller "xyz" ]}.
Proof.
  destruct (form_submission_starts_polling (mounted : World)
              "  Open Chrome " "xyz" "t0")
    as (w1 & w2 & t & w3 & _ & Hs1 & _ & _ & Hs2 & Hi & _ & _ & _ & _ & _
        & Ht & _).
  - exists []. reflexivity.
  - intros Hb. apply truthy_trim in Hb. discriminate.
  - reflexivity.
  - exists w1, w2, t. auto.
Defined.

(** The server answers a submission with an empty job id. *)
Lemma empty_job_id_starts_nothing_witness :
  exists w1 w2 : World,
    step mounted (EvSubmit "Open Chrome") = Some w1 /\
    step w1 (EvReply 0 (ROk (DJobId EmptyString)) "t0") = Some w2 /\
    form (view (state w2)) = Some true /\
    resetButton (view (state w2)) = false /\
    timers w2 = ∅.
Proof.
  destruct (empty_job_id_starts_nothing (mounted : World)
              "Open Chrome" EmptyString "t0")
    as (w1 & w2 & Hs1 & Hs2 & _ & _ & _ & Hb & Hf & _ & Ht & _).
  - exists []. reflexivity.
  - reflexivity.
  - exists w1, w2. auto.
Defined.

(** On the run [polled]: the status reply says [generating_plan], which is
    not the status the job has. *)
Lemma unsettled_reply_keeps_polling_witness :
  exists w' t,
    step (after polled)
      (EvReply 0 (ROk (DStatus (report "generating_plan" None))) "t1")
    = Some w' /\
    timers w' = {[ t := poller "abc" ]} /\
    t = nextTimer (after polled).
Proof.
  assert (reachable (after polled)) as Hr by reached polled.
  assert (inflight (after polled) !! 0 = Some (GetStatus "abc")) as Hi
    by run_it.
  assert (activeId (state (after polled)) = Some "abc") as Ha by run_it.
  assert (Types.status <$> jobStatus (state (after polled))
          <> Some (Types.status (report "generating_plan" None))) as Hd
    by (vm_compute; discriminate).
  destruct (unsettled_reply_keeps_polling (after polled) 0 "abc" "abc"
              (report "generating_plan" None) "t1" Hr Hi Ha eq_refl)
    as (w' & t & Hs & _ & _ & _ & Ht & _ & _ & Hnew).
  exists w', t. split; [exact Hs|]. split; [exact Ht|].
  now destruct (Hnew Hd).
Defined.

(** On the run [planned]: execute, and the next poll says [completed] with a
    video. *)
Lemma action_polls_until_settled_witness :
  exists w1 w2 t w3 w4 p,
    step (after planned) EvExecute = Some w1 /\
    step w1 (EvReply 0 (ROk DOther) "t2") = Some w2 /\
    step w2 (EvTick t) = Some w3 /\
    step w3 (EvReply 0 (ROk (DStatus (report "completed"
                                         (Some "/media/abc.mp4")))) "t3")
    = Some w4 /\
    timers w4 = ∅ /\
    videoPlayer (view (state w4)) = Some p /\
    videoUrl p = "/media/abc.mp4".
Proof.
  assert (reachable (after planned)) as Hr by reached planned.
  assert (activeId (state (after planned)) = Some "abc") as Ha by run_it.
  assert (jobStatus (state (after planned)) = Some (report "plan_ready" None))
    as Hjs by run_it.
  destruct (action_polls_until_settled (after planned) EvExecute "abc"
              (report "plan_ready" None)
              (report "completed" (Some "/media/abc.mp4")) "t2" "t3"
              Hr (or_introl eq_refl) Ha Hjs eq_refl)
    as (w1 & w2 & t & w3 & w4 & Hs1 & Hs2 & _ & _ & _ & Hs3 & _ & Hs4 & _
        & _ & _ & Ht & _ & _ & Hp).
  destruct (Hp eq_refl "/media/abc.mp4" eq_refl eq_refl) as (p & Hv & Hu).
  exists w1, w2, t, w3, w4, p. auto 10.
Defined.

(** On the run [planned] the plan is ready: one editor is on the screen, and
    it executes. *)
Lemma screen_parts_exclude_witness :
  exists ed,
    In ed (editors (view (state (after planned)))) /\
    onExecute ed = HExecute /\
    editorIsLoading ed = isLoading (state (after planned)) /\
    videoPlayer (view (state (after planned))) = None.
Proof.
  assert (exists ed, editors (view (state (after planned))) = [ed]) as (ed & He)
    by (eexists; vm_compute; reflexivity).
  assert (isCompleted (state (after planned)) = false) as Hc by run_it.
  assert (videoPlayer (view (state (after planned))) = None) as Hv by run_it.
  assert (In ed (editors (view (state (after planned))))) as Hin
    by (rewrite He; now left).
  destruct (proj1 (proj2 (proj2 (proj2 (screen_parts_exclude
                                          (state (after planned))))))
              ed Hin) as (_ & Hex & _ & Hl).
  exists ed. split; [exact Hin|]. split; [now apply Hex|].
  split; [exact Hl | exact Hv].
Defined.

End EngineRuns.
